(** * Superhero comparison: selection reducer and comparison engines

    A shallow embedding of the two pieces of logic of the superhero
    workshop application that carry design decisions:

    - the selection reducer [handleHeroSelection] of the React front end
      ([frontend/src/App.js]), together with the "back to table" reset;
    - the comparison of two heroes, which exists twice: in the front end
      ([getSafeStat], [calculateWinner]) and in the Express back end
      (the [GET /api/superheroes/compare] handler of [server.ts]).

    JavaScript numbers are IEEE-754 binary64 values; they are modelled by
    the Standard Library's [spec_float], so that [NaN], the two zeros and
    the infinities are all present and [>] and [===] behave as in the
    language.  The text-to-number and number-to-text conversions of
    ECMA-262 are operations of the host, gathered in the class
    [HostNumerics]; every result below holds for any host. *)

From Stdlib Require Import ZArith String Ascii List Bool Lia.
From Stdlib Require Import Floats.SpecFloat.
From stdpp Require Import base option gmap strings list pretty.
Import ListNotations.

Local Open Scope string_scope.

(** ** JavaScript numbers *)

Definition number : Type := spec_float.

Definition NaN : number := S754_nan.
Definition pos_zero : number := S754_zero false.
Definition neg_zero : number := S754_zero true.
Definition Infinity : number := S754_infinity false.

(** The binary64 value nearest to an integer (ties to even). *)
Definition number_of_Z (z : Z) : number := binary_normalize 53 1024 z 0 false.

(** [isNaN] and [Number.isNaN] on a value that is already a number. *)
Definition isNaN (x : number) : bool :=
  match x with S754_nan => true | _ => false end.

(** [x > y]: true exactly when [y < x]; any comparison with [NaN] is false. *)
Definition js_gt (x y : number) : bool := SFltb y x.

(** [x === y] on numbers: [NaN] differs from itself, [+0 === -0]. *)
Definition number_equals (x y : number) : bool := SFeqb x y.

(** ** Primitive values and objects

    What [JSON.parse] produces at the leaves, plus [undefined] for a
    property that is not there. *)

Inductive prim : Type :=
  | PUndefined
  | PNull
  | PBool (b : bool)
  | PNumber (n : number)
  | PString (s : string).

(** A property value that is either a primitive or a plain object whose
    own properties hold primitives (the shape of [powerstats]). *)
Inductive value : Type :=
  | VPrim (p : prim)
  | VObject (props : gmap string prim).

(** [a === b] on primitives. *)
Definition strict_equals (a b : prim) : bool :=
  match a, b with
  | PUndefined, PUndefined => true
  | PNull, PNull => true
  | PBool x, PBool y => Bool.eqb x y
  | PNumber x, PNumber y => number_equals x y
  | PString x, PString y => String.eqb x y
  | _, _ => false
  end.

(** [ToBoolean]: the falsy primitives are [undefined], [null], [false],
    the zeros, [NaN] and the empty string; every object is truthy. *)
Definition ToBoolean (p : prim) : bool :=
  match p with
  | PUndefined | PNull => false
  | PBool b => b
  | PNumber (S754_zero _) | PNumber S754_nan => false
  | PNumber _ => true
  | PString s => negb (String.eqb s "")
  end.

Definition truthy (v : value) : bool :=
  match v with
  | VPrim p => ToBoolean p
  | VObject _ => true
  end.

(** ** Host conversions *)

Class HostNumerics : Type := {
  (** [StringToNumber] of ECMA-262, the string case of [Number(s)]. *)
  StringToNumber : string -> number;
  (** [Number::toString], the number case of [String(n)]. *)
  NumberToString : number -> string;
  (** [parseInt] applied to a string, radix omitted. *)
  parseIntString : string -> number
}.

Section Coercions.
Context `{HostNumerics}.

(** [Number(v)]. *)
Definition ToNumber (v : prim) : number :=
  match v with
  | PUndefined => NaN
  | PNull => pos_zero
  | PBool true => number_of_Z 1
  | PBool false => pos_zero
  | PNumber n => n
  | PString s => StringToNumber s
  end.

(** [String(v)]. *)
Definition ToString (v : prim) : string :=
  match v with
  | PUndefined => "undefined"
  | PNull => "null"
  | PBool true => "true"
  | PBool false => "false"
  | PNumber n => NumberToString n
  | PString s => s
  end.

(** [parseInt(v)]: the argument is converted to a string first. *)
Definition parseInt (v : prim) : number := parseIntString (ToString v).
End Coercions.

(** ** Entities *)

Record Superhero : Type := {
id : prim;
name : prim;
image : prim;
powerstats : value
}.

(** The six powerstat names, in the order both engines iterate them. *)
Inductive CategoryName : Type :=
| intelligence | strength | speed | durability | power | combat.

Definition categoriesOrder : list CategoryName :=
[intelligence; strength; speed; durability; power; combat].

Definition key (c : CategoryName) : string :=
match c with
| intelligence => "intelligence"
| strength => "strength"
| speed => "speed"
| durability => "durability"
| power => "power"
| combat => "combat"
end.

(** [base[c]] for a powerstat name [c].  Reading a property of
  [undefined] or [null] throws a [TypeError] ([None]); a boolean, a
  number or a string has no property of that name; an object yields
  its own property or [undefined]. *)
Definition Get (base : value) (c : CategoryName) : option prim :=
match base with
| VPrim PUndefined | VPrim PNull => None
| VPrim _ => Some PUndefined
| VObject props => Some (default PUndefined (props !! key c))
end.

(** [base?.[c]]: [undefined] instead of an exception on a nullish base. *)
Definition OptGet (base : value) (c : CategoryName) : prim :=
match Get base c with
| Some p => p
| None => PUndefined
end.

(** ** Selection reducer (front end) *)

Module Selection.

(** The test [h.id === hero.id] of the reducer. *)
Definition same_id (h hero : Superhero) : bool :=
  strict_equals (id h) (id hero).

(** The updater passed to [setSelectedHeroes] by [handleHeroSelection]. *)
Definition handleHeroSelection (hero : Superhero) (prev : list Superhero)
  : list Superhero :=
  match List.find (fun h => same_id h hero) prev with
  | Some _ =>
      (* Remove if already selected *)
      List.filter (fun h => negb (same_id h hero)) prev
  | None =>
      match prev with
      | [] | [_] =>
          (* prev.length < 2: add *)
          prev ++ [hero]
      | _ :: second :: _ =>
          (* Replace first selection if 2 already selected *)
          [second; hero]
      end
  end.

(** What the user interface can do to the selection: tick a row's
    checkbox, or leave the comparison view ([handleBackToTable]). *)
Inductive event : Type :=
  | Toggle (hero : Superhero)
  | Clear.

Definition step (sel : list Superhero) (ev : event) : list Superhero :=
  match ev with
  | Toggle hero => handleHeroSelection hero sel
  | Clear => []
  end.

(** [useState([])] followed by a sequence of events. *)
Definition run (evs : list event) : list Superhero := fold_left step evs [].

(** [isHeroSelected(heroId)] against the current selection. *)
Definition isHeroSelected (sel : list Superhero) (heroId : prim) : bool :=
  existsb (fun h => strict_equals (id h) heroId) sel.

(** The "Compare Heroes" button is enabled. *)
Definition eligible (sel : list Superhero) : bool := Nat.eqb (length sel) 2.

End Selection.

(** ** Comparison in the back end ([GET /api/superheroes/compare]) *)

Module Backend.

(** [1 | 2 | 'tie'] *)
Inductive Winner : Type := W1 | W2 | Tie.

Record CategoryResult : Type := {
  name : CategoryName;
  winner : Winner;
  id1_value : number;
  id2_value : number
}.

Record ComparisonResult : Type := {
  id1 : number;
  id2 : number;
  categories : list CategoryResult;
  overall_winner : Winner
}.

(** The JSON bodies the handler sends. *)
Inductive body : Type :=
  | ErrorBody (error : string) (status : string)
  | ResultBody (result : ComparisonResult).

(** [res.status(code).json(body)] and [res.status(code).send(text)];
    [res.json] alone answers 200.  A body is the object handed to
    [res.json], before it is written out as text. *)
Inductive response : Type :=
  | Json (code : nat) (b : body)
  | Send (code : nat) (text : string).

Section Handler.
Context `{HostNumerics}.

(** The callback of [categoriesOrder.map]. *)
Definition category (hero1 hero2 : Superhero) (cat : CategoryName)
  : CategoryResult :=
  let v1 := ToNumber (OptGet (powerstats hero1) cat) in
  let v2 := ToNumber (OptGet (powerstats hero2) cat) in
  let winner := if js_gt v1 v2 then W1 else if js_gt v2 v1 then W2 else Tie in
  {| name := cat; winner := winner; id1_value := v1; id2_value := v2 |}.

Definition is_W1 (c : CategoryResult) : bool :=
  match winner c with W1 => true | _ => false end.

Definition is_W2 (c : CategoryResult) : bool :=
  match winner c with W2 => true | _ => false end.

(** The part of the handler that runs once both heroes are found: from
    [categoriesOrder] to the object handed to [res.json]. *)
Definition compare (hero1 hero2 : Superhero) (id1Num id2Num : number)
  : ComparisonResult :=
  let categories := map (category hero1 hero2) categoriesOrder in
  let hero1Wins := length (List.filter is_W1 categories) in
  let hero2Wins := length (List.filter is_W2 categories) in
  let overall_winner :=
    if Nat.ltb hero2Wins hero1Wins then W1
    else if Nat.ltb hero1Wins hero2Wins then W2
    else Tie in
  {| id1 := id1Num; id2 := id2Num;
     categories := categories; overall_winner := overall_winner |}.

(** A query parameter is a string, or is not there. *)
Definition query_param (q : option string) : prim :=
  match q with
  | Some s => PString s
  | None => PUndefined
  end.

(** The handler, with the comparison it runs on the two heroes it found
    taken as an argument.  [store] is what [loadSuperheroes] resolves to,
    [None] when the promise rejects and the [catch] block answers. *)
Definition compare_route
  (engine : Superhero -> Superhero -> number -> number -> ComparisonResult)
  (q1 q2 : option string) (store : option (list Superhero)) : response :=
  let id1 := query_param q1 in
  let id2 := query_param q2 in
  let id1Num := ToNumber id1 in
  let id2Num := ToNumber id2 in
  if negb (ToBoolean id1) || negb (ToBoolean id2) then
    Json 400 (ErrorBody "Both id1 and id2 query parameters are required"
                        "invalid_request")
  else if isNaN id1Num || isNaN id2Num then
    Json 400 (ErrorBody "id1 and id2 must be valid numbers" "invalid_request")
  else
    match store with
    | None => Send 500 "Internal Server Error"
    | Some superheroes =>
        let hero1 :=
          List.find (fun h => number_equals (ToNumber (id h)) id1Num)
                    superheroes in
        let hero2 :=
          List.find (fun h => number_equals (ToNumber (id h)) id2Num)
                    superheroes in
        match hero1, hero2 with
        | Some hero1, Some hero2 =>
            Json 200 (ResultBody (engine hero1 hero2 id1Num id2Num))
        | _, _ =>
            Json 400 (ErrorBody "One or both superheroes not found"
                                "invalid_request")
        end
    end.

(** The handler as registered with [app.get]. *)
Definition compare_handler : option string -> option string ->
  option (list Superhero) -> response :=
  compare_route compare.

End Handler.

End Backend.

(** ** Comparison in the front end ([App.js]) *)

Module Frontend.

Record WinnerResult : Type := {
  winner : option Superhero;
  score : string
}.

(** [`${a}-${b}`] for two counters. *)
Definition score_text (a b : nat) : string :=
  pretty a ++ "-" ++ pretty b.

(** The array literal of [calculateWinner] and [renderComparison]. *)
Definition stats : list CategoryName :=
  [intelligence; strength; speed; durability; power; combat].

Section Engine.
Context `{HostNumerics}.

(** [getSafeStat(hero, stat)]; [None] would be an exception. *)
Definition getSafeStat (hero : Superhero) (stat : CategoryName)
  : option number :=
  if negb (truthy (powerstats hero)) then Some pos_zero
  else
    raw ← Get (powerstats hero) stat;
    if strict_equals raw PNull || strict_equals raw PUndefined
    then Some pos_zero
    else
      let value := parseInt raw in
      Some (if isNaN value then pos_zero else value).

(** One turn of the [stats.forEach] loop on the two counters. *)
Definition tally (hero1 hero2 : Superhero) (scores : nat * nat)
  (stat : CategoryName) : option (nat * nat) :=
  stat1 ← getSafeStat hero1 stat;
  stat2 ← getSafeStat hero2 stat;
  let '(hero1Score, hero2Score) := scores in
  if js_gt stat1 stat2 then Some (S hero1Score, hero2Score)
  else if js_gt stat2 stat1 then Some (hero1Score, S hero2Score)
  else Some (hero1Score, hero2Score).

(** The loop: the counters after the given stats, starting from [scores]. *)
Fixpoint forEach (hero1 hero2 : Superhero) (stats : list CategoryName)
  (scores : nat * nat) : option (nat * nat) :=
  match stats with
  | [] => Some scores
  | stat :: rest =>
      scores' ← tally hero1 hero2 scores stat;
      forEach hero1 hero2 rest scores'
  end.

(** [calculateWinner(hero1, hero2)]. *)
Definition calculateWinner (hero1 hero2 : Superhero) : option WinnerResult :=
  '(hero1Score, hero2Score) ← forEach hero1 hero2 stats (0, 0)%nat;
  if Nat.ltb hero2Score hero1Score then
    Some {| winner := Some hero1; score := score_text hero1Score hero2Score |}
  else if Nat.ltb hero1Score hero2Score then
    Some {| winner := Some hero2; score := score_text hero2Score hero1Score |}
  else
    Some {| winner := None; score := score_text hero1Score hero2Score |}.

End Engine.

End Frontend.

(** ** The other routes of the back end *)

Module Server.

(** What a route sends: [res.json(...)] of the list, of one hero, or of
    a hero's [powerstats], or [res.status(code).send(text)]. *)
Inductive reply : Type :=
  | JsonList (superheroes : list Superhero)
  | JsonHero (superhero : Superhero)
  | JsonValue (v : value)
  | Status (code : nat) (text : string).

Section Routes.
Context `{HostNumerics}.

(** [GET /api/superheroes]. *)
Definition list_route (store : option (list Superhero)) : reply :=
  match store with
  | Some superheroes => JsonList superheroes
  | None => Status 500 "Internal Server Error"
  end.

(** The test [String(hero.id) === String(id)]; the path parameter, [id'] here,
    is a string already. *)
Definition id_matches (id' : string) (hero : Superhero) : bool :=
  String.eqb (ToString (id hero)) id'.

(** [GET /api/superheroes/:id]. *)
Definition hero_route (id' : string) (store : option (list Superhero))
  : reply :=
  match store with
  | Some superheroes =>
      match List.find (id_matches id') superheroes with
      | Some superhero => JsonHero superhero
      | None => Status 404 "Superhero not found"
      end
  | None => Status 500 "Internal Server Error"
  end.

(** [GET /api/superheroes/:id/powerstats]. *)
Definition powerstats_route (id' : string) (store : option (list Superhero))
  : reply :=
  match store with
  | Some superheroes =>
      match List.find (id_matches id') superheroes with
      | Some superhero => JsonValue (powerstats superhero)
      | None => Status 404 "Superhero not found"
      end
  | None => Status 500 "Internal Server Error"
  end.

End Routes.

End Server.

(** ** The component [App] of [frontend/src/App.js] *)

Module App.

(** ['table'] or ['comparison']. *)
Inductive view : Type := table | comparison.

(** The three [useState] cells. *)
Record state : Type := {
  superheroes : list Superhero;
  selectedHeroes : list Superhero;
  currentView : view
}.

Definition initial : state :=
  {| superheroes := []; selectedHeroes := []; currentView := table |}.

(** The end of the fetch in [useEffect]: an array is kept; anything else,
    a status that is not ok or a failure ([None]) leaves the empty
    list. *)
Definition loaded (data : option (list Superhero)) (s : state) : state :=
  {| superheroes := default [] data;
     selectedHeroes := selectedHeroes s;
     currentView := currentView s |}.

Definition handleHeroSelection (hero : Superhero) (s : state) : state :=
  {| superheroes := superheroes s;
     selectedHeroes := Selection.handleHeroSelection hero (selectedHeroes s);
     currentView := currentView s |}.

Definition handleCompare (s : state) : state :=
  if Nat.eqb (length (selectedHeroes s)) 2 then
    {| superheroes := superheroes s;
       selectedHeroes := selectedHeroes s;
       currentView := comparison |}
  else s.

Definition handleBackToTable (s : state) : state :=
  {| superheroes := superheroes s;
     selectedHeroes := [];
     currentView := table |}.

(** The class of a row of the comparison: ['hero1'], ['hero2'], ['tie']. *)
Inductive mark : Type := hero1_mark | hero2_mark | tie_mark.

Record row : Type := {
  stat1 : number;
  stat : CategoryName;
  stat2 : number;
  winner : mark
}.

(** The closing block: a winner's name and the score, or a tie and the
    score. *)
Inductive announcement : Type :=
  | Wins (name : prim) (score : string)
  | ItsATie (score : string).

(** What the comparison view shows. *)
Record comparison_view : Type := {
  hero1 : Superhero;
  hero2 : Superhero;
  rows : list row;
  final : announcement
}.

(** [renderComparison] returns [null], or raises, or shows a view. *)
Inductive rendered : Type :=
  | Nothing
  | Raised
  | Shown (v : comparison_view).

(** [x < y]. *)
Definition js_lt (x y : number) : bool := SFltb x y.

Section Render.
Context `{HostNumerics}.

(** The callback of [stats.map] in [renderComparison]. *)
Definition render_row (hero1 hero2 : Superhero) (stat : CategoryName)
  : option row :=
  stat1 ← Frontend.getSafeStat hero1 stat;
  stat2 ← Frontend.getSafeStat hero2 stat;
  let winner :=
    if js_gt stat1 stat2 then hero1_mark
    else if js_lt stat1 stat2 then hero2_mark
    else tie_mark in
  Some {| stat1 := stat1; stat := stat; stat2 := stat2; winner := winner |}.

(** [result.winner ? ... : ...] *)
Definition announce (result : Frontend.WinnerResult) : announcement :=
  match Frontend.winner result with
  | Some hero => Wins (name hero) (Frontend.score result)
  | None => ItsATie (Frontend.score result)
  end.

Definition renderComparison (s : state) : rendered :=
  match selectedHeroes s with
  | [hero1; hero2] =>
      match Frontend.calculateWinner hero1 hero2,
            mapM (render_row hero1 hero2) Frontend.stats with
      | Some result, Some rows =>
          Shown {| hero1 := hero1; hero2 := hero2; rows := rows;
                   final := announce result |}
      | _, _ => Raised
      end
  | _ => Nothing
  end.

(** What the user does: the list arrives, or a control that is on the
    page is used.  The checkboxes (one per row of the list) and the
    compare button are on the page in the table view, the button being
    disabled unless two heroes are selected; the back button is on the
    page in the comparison view when that view shows anything. *)
Inductive event : Type :=
  | Loaded (data : option (list Superhero))
  | ClickCheckbox (index : nat)
  | ClickCompare
  | ClickBack.

Definition step (s : state) (ev : event) : state :=
  match ev, currentView s with
  | Loaded data, _ => loaded data s
  | ClickCheckbox index, table =>
      match superheroes s !! index with
      | Some hero => handleHeroSelection hero s
      | None => s
      end
  | ClickCompare, table =>
      if Nat.eqb (length (selectedHeroes s)) 2 then handleCompare s else s
  | ClickBack, comparison =>
      match renderComparison s with
      | Shown _ => handleBackToTable s
      | _ => s
      end
  | _, _ => s
  end.

Definition run (evs : list event) : state := fold_left step evs initial.

End Render.

End App.

(** ** The comparison view of the later [App], fed by the back end *)

Module Refactored.

(** The class of a row, from [category.winner]. *)
Definition row_mark (category : Backend.CategoryResult) : App.mark :=
  match Backend.winner category with
  | Backend.W1 => App.hero1_mark
  | Backend.W2 => App.hero2_mark
  | Backend.Tie => App.tie_mark
  end.

Definition is_1 (cat : Backend.CategoryResult) : bool :=
  match Backend.winner cat with Backend.W1 => true | _ => false end.

Definition is_2 (cat : Backend.CategoryResult) : bool :=
  match Backend.winner cat with Backend.W2 => true | _ => false end.

(** The closing block, from [categories] and [overall_winner] of the
    result and the names of the two selected heroes. *)
Definition final_result (hero1 hero2 : Superhero)
  (categories : list Backend.CategoryResult)
  (overall_winner : Backend.Winner) : App.announcement :=
  let hero1Wins := length (List.filter is_1 categories) in
  let hero2Wins := length (List.filter is_2 categories) in
  match overall_winner with
  | Backend.Tie => App.ItsATie (Frontend.score_text hero1Wins hero2Wins)
  | Backend.W1 =>
      App.Wins (name hero1) (Frontend.score_text hero1Wins hero2Wins)
  | Backend.W2 =>
      App.Wins (name hero2) (Frontend.score_text hero2Wins hero1Wins)
  end.

End Refactored.

(** ** The later [App], with the login screen and the comparison fetched
    from the back end *)

Module LoginApp.

(** The five [useState] cells, and the requests that are under way: the
    fetch of the list started by [useEffect], and the fetches started
    by [handleCompare] that have not come back. *)
Record state : Type := {
  showLogin : bool;
  superheroes : list Superhero;
  selectedHeroes : list Superhero;
  currentView : App.view;
  comparisonResult : option Backend.ComparisonResult;
  list_pending : bool;
  compare_pending : nat
}.

Definition initial : state :=
  {| showLogin := true; superheroes := []; selectedHeroes := [];
     currentView := App.table; comparisonResult := None;
     list_pending := false; compare_pending := 0 |}.

(** [renderComparison] shows something: two heroes are selected and a
    result is there. *)
Definition comparison_shown (s : state) : bool :=
  Nat.eqb (length (selectedHeroes s)) 2
  && match comparisonResult s with Some _ => true | None => false end.

(** What happens: the form of the login screen is submitted; the list
    arrives; a checkbox, the compare button or the back button is
    used; the answer to a comparison arrives, with a result or ([None])
    with a failure. *)
Inductive event : Type :=
  | Submit
  | ListArrives (data : option (list Superhero))
  | ClickCheckbox (index : nat)
  | ClickCompare
  | CompareArrives (result : option Backend.ComparisonResult)
  | ClickBack.

Definition on_table (s : state) : bool :=
  negb (showLogin s)
  && match currentView s with App.table => true | _ => false end.

Definition step (s : state) (ev : event) : state :=
  match ev with
  | Submit =>
      (* handleSubmit calls onLogin; the effect then starts the fetch *)
      if showLogin s then
        {| showLogin := false; superheroes := superheroes s;
           selectedHeroes := selectedHeroes s;
           currentView := currentView s;
           comparisonResult := comparisonResult s;
           list_pending := true; compare_pending := compare_pending s |}
      else s
  | ListArrives data =>
      if list_pending s then
        {| showLogin := showLogin s; superheroes := default [] data;
           selectedHeroes := selectedHeroes s;
           currentView := currentView s;
           comparisonResult := comparisonResult s;
           list_pending := false; compare_pending := compare_pending s |}
      else s
  | ClickCheckbox index =>
      if on_table s then
        match superheroes s !! index with
        | Some hero =>
            {| showLogin := showLogin s; superheroes := superheroes s;
               selectedHeroes :=
                 Selection.handleHeroSelection hero (selectedHeroes s);
               currentView := currentView s;
               comparisonResult := comparisonResult s;
               list_pending := list_pending s;
               compare_pending := compare_pending s |}
        | None => s
        end
      else s
  | ClickCompare =>
      (* handleCompare up to its await *)
      if on_table s && Nat.eqb (length (selectedHeroes s)) 2 then
        {| showLogin := showLogin s; superheroes := superheroes s;
           selectedHeroes := selectedHeroes s;
           currentView := currentView s;
           comparisonResult := comparisonResult s;
           list_pending := list_pending s;
           compare_pending := S (compare_pending s) |}
      else s
  | CompareArrives result =>
      (* handleCompare after its await *)
      match compare_pending s with
      | O => s
      | S n =>
          match result with
          | Some r =>
              {| showLogin := showLogin s; superheroes := superheroes s;
                 selectedHeroes := selectedHeroes s;
                 currentView := App.comparison;
                 comparisonResult := Some r;
                 list_pending := list_pending s; compare_pending := n |}
          | None =>
              {| showLogin := showLogin s; superheroes := superheroes s;
                 selectedHeroes := selectedHeroes s;
                 currentView := currentView s;
                 comparisonResult := comparisonResult s;
                 list_pending := list_pending s; compare_pending := n |}
          end
      end
  | ClickBack =>
      (* handleBackToTable *)
      if negb (showLogin s)
         && match currentView s with App.comparison => true | _ => false end
         && comparison_shown s then
        {| showLogin := showLogin s; superheroes := superheroes s;
           selectedHeroes := []; currentView := App.table;
           comparisonResult := None;
           list_pending := list_pending s;
           compare_pending := compare_pending s |}
      else s
  end.

Definition run (evs : list event) : state := fold_left step evs initial.

End LoginApp.

(** ** The tool [get_superhero] of the MCP server *)

(** [String.prototype.toLowerCase], an operation of the host. *)
Class HostText : Type := {
  toLowerCase : string -> string
}.

Module Mcp.

Definition quote : string := String (ascii_of_nat 34) EmptyString.
Definition newline : string := String (ascii_of_nat 10) EmptyString.

(** What a call of the tool ends in. *)
Inductive failure : Type :=
  | TypeError
  | Error (message : string).

Inductive outcome (A : Type) : Type :=
  | Returned (a : A)
  | Thrown (e : failure).

Arguments Returned {A} a.
Arguments Thrown {A} e.

(** [Array.prototype.find] with a callback that may raise. *)
Fixpoint find_raising {A : Type} (f : A -> option bool) (l : list A)
  : option (option A) :=
  match l with
  | [] => Some None
  | x :: rest =>
      match f x with
      | None => None
      | Some true => Some (Some x)
      | Some false => find_raising f rest
      end
  end.

Section Tool.
Context `{HostNumerics} `{HostText}.

(** The six lines of powerstats, or [None] for the [TypeError] of
    reading a property of [undefined] or [null]. *)
Definition stat_text (stats : value) (c : CategoryName) : option string :=
  x ← Get stats c; Some (ToString x).

(** [formatSuperheroMarkdown] of [mcp/src/index.ts]: an array of lines
    joined by ["\n"]. *)
Definition formatSuperheroMarkdown (hero : Superhero) : option string :=
  let stats := powerstats hero in
  i ← stat_text stats intelligence;
  s ← stat_text stats strength;
  v ← stat_text stats speed;
  d ← stat_text stats durability;
  p ← stat_text stats power;
  c ← stat_text stats combat;
  Some (String.concat newline
    [ "Here is the data for " ++ ToString (name hero)
        ++ " retrieved using the superheroes MCP:" ++ newline;
      "• Name: " ++ ToString (name hero);
      "• Image: <img src=" ++ quote ++ ToString (image hero) ++ quote
        ++ " alt=" ++ quote ++ ToString (name hero) ++ quote ++ "/>";
      "• Powerstats:";
      "  • Intelligence: " ++ i;
      "  • Strength: " ++ s;
      "  • Speed: " ++ v;
      "  • Durability: " ++ d;
      "  • Power: " ++ p;
      "  • Combat: " ++ c ]).

(** [formatSuperheroMarkdown] of the other version of the server: one
    template literal over eleven lines. *)
Definition formatSuperheroMarkdown_template (hero : Superhero)
  : option string :=
  i ← stat_text (powerstats hero) intelligence;
  s ← stat_text (powerstats hero) strength;
  v ← stat_text (powerstats hero) speed;
  d ← stat_text (powerstats hero) durability;
  p ← stat_text (powerstats hero) power;
  c ← stat_text (powerstats hero) combat;
  Some ("Here is the data for " ++ ToString (name hero)
        ++ " retrieved using the superheroes MCP:
" ++ "
• Name: " ++ ToString (name hero) ++ "
• Image: <img src=" ++ quote ++ ToString (image hero) ++ quote
        ++ " alt=" ++ quote ++ ToString (name hero) ++ quote ++ "/>
• Powerstats:
  • Intelligence: " ++ i ++ "
  • Strength: " ++ s ++ "
  • Speed: " ++ v ++ "
  • Durability: " ++ d ++ "
  • Power: " ++ p ++ "
  • Combat: " ++ c).

(** [hero.name?.toLowerCase() ?? ""]: a name that is there but is no
    string has no such method. *)
Definition heroNameLc (hero : Superhero) : option string :=
  match name hero with
  | PUndefined | PNull => Some ""
  | PString s => Some (toLowerCase s)
  | PBool _ | PNumber _ => None
  end.

(** [hero.id?.toString() ?? ""]. *)
Definition heroIdStr (hero : Superhero) : string :=
  match id hero with
  | PUndefined | PNull => ""
  | other => ToString other
  end.

(** A text that is there and not empty. *)
Definition given (q : option string) : bool :=
  match q with
  | Some s => negb (String.eqb s "")
  | None => false
  end.

(** The callback of [find] in [mcp/src/index.ts], where [nameLc] is
    [name?.toLowerCase()] and [idStr] is [id?.toString()]:
    [(nameLc && heroNameLc === nameLc) || (idStr && heroIdStr === idStr)]. *)
Definition matches (nameLc idStr : option string) (hero : Superhero)
  : option bool :=
  heroNameLc ← heroNameLc hero;
  let heroIdStr := heroIdStr hero in
  Some ((given nameLc && bool_decide (Some heroNameLc = nameLc))
        || (given idStr && bool_decide (Some heroIdStr = idStr))).

(** The handler of the tool in [mcp/src/index.ts]; [superheroes] is what
    [loadSuperheroes] returned. *)
Definition get_superhero (name id' : option string)
  (superheroes : list Superhero) : outcome string :=
  let nameLc := toLowerCase <$> name in
  let idStr := id' in
  match find_raising (matches nameLc idStr) superheroes with
  | None => Thrown TypeError
  | Some None => Thrown (Error "Superhero not found")
  | Some (Some superhero) =>
      match formatSuperheroMarkdown superhero with
      | Some text => Returned text
      | None => Thrown TypeError
      end
  end.

(** The callback of the other version, where [nameLc] is
    [name?.toLowerCase() ?? ""] and [idStr] is [id ?? ""]:
    [(name && heroNameLc === nameLc) || (id && heroIdStr === idStr)]. *)
Definition matches_registered (name id' : option string) (hero : Superhero)
  : option bool :=
  let nameLc := default "" (toLowerCase <$> name) in
  let idStr := default "" id' in
  heroNameLc ← heroNameLc hero;
  let heroIdStr := heroIdStr hero in
  Some ((given name && String.eqb heroNameLc nameLc)
        || (given id' && String.eqb heroIdStr idStr)).

(** The handler of the other version. *)
Definition get_superhero_registered (name id' : option string)
  (superheroes : list Superhero) : outcome string :=
  match find_raising (matches_registered name id') superheroes with
  | None => Thrown TypeError
  | Some None => Thrown (Error "Superhero not found")
  | Some (Some hero) =>
      match formatSuperheroMarkdown_template hero with
      | Some text => Returned text
      | None => Thrown TypeError
      end
  end.

End Tool.

End Mcp.

(** ** A reference host

    An executable rendering of the three conversions, after ECMA-262
    ([StringToNumber], [Number::toString] and [parseInt]).  Strings hold
    the UTF-8 bytes of the text.  It serves to run the definitions on the
    data of the repository's tests; no result depends on it. *)

Module ReferenceHost.

Local Open Scope Z_scope.

Definition code (c : ascii) : Z := Z.of_nat (nat_of_ascii c).

(** The value of a digit character in the given radix. *)
Definition digit_of (radix : Z) (c : ascii) : option Z :=
  let n := code c in
  let d :=
    if (48 <=? n) && (n <=? 57) then Some (n - 48)
    else if (97 <=? n) && (n <=? 102) then Some (n - 87)
    else if (65 <=? n) && (n <=? 70) then Some (n - 55)
    else None in
  match d with
  | Some v => if v <? radix then Some v else None
  | None => None
  end.

(** The longest prefix of digits: its value, its length, and what follows. *)
Fixpoint read_digits (radix : Z) (s : string) (acc : Z) (count : nat)
  : Z * nat * string :=
  match s with
  | String c rest =>
      match digit_of radix c with
      | Some d => read_digits radix rest (acc * radix + d) (S count)
      | None => (acc, count, s)
      end
  | EmptyString => (acc, count, s)
  end.

(** [WhiteSpace] and [LineTerminator]: TAB, LF, VT, FF, CR, SP in one
    byte; U+00A0 in two; U+1680, U+2000 to U+200A, U+2028, U+2029,
    U+202F, U+205F, U+3000 and U+FEFF in three. *)
Definition ws1 (a : ascii) : bool :=
  let n := code a in ((9 <=? n) && (n <=? 13)) || (n =? 32).

Definition ws2 (a b : ascii) : bool :=
  (code a =? 194) && (code b =? 160).

Definition ws3 (a b c : ascii) : bool :=
  let '(x, y, z) := (code a, code b, code c) in
  ((x =? 225) && (y =? 154) && (z =? 128))
  || ((x =? 226) && (y =? 128)
      && (((128 <=? z) && (z <=? 138)) || (z =? 168) || (z =? 169)
          || (z =? 175)))
  || ((x =? 226) && (y =? 129) && (z =? 159))
  || ((x =? 227) && (y =? 128) && (z =? 128))
  || ((x =? 239) && (y =? 187) && (z =? 191)).

(** Strip leading white space. *)
Fixpoint skip_ws (s : string) : string :=
  match s with
  | String a r1 =>
      if ws1 a then skip_ws r1
      else
        match r1 with
        | String b r2 =>
            if ws2 a b then skip_ws r2
            else
              match r2 with
              | String c r3 => if ws3 a b c then skip_ws r3 else s
              | EmptyString => s
              end
        | EmptyString => s
        end
  | EmptyString => s
  end.

(** Number of decimal digits of a positive integer. *)
Definition decimal_length (m : Z) : Z := Z.of_nat (String.length (pretty m)).

(** The binary64 value nearest to the positive rational [num / den]:
    the quotient is taken with 64 bits or more, and one more bit records
    whether anything was left over. *)
Definition round_ratio (num den : Z) : number :=
  let k := Z.max 0 (66 + Z.log2 den - Z.log2 num) in
  let scaled := num * 2 ^ k in
  let q := scaled / den in
  let sticky := if scaled mod den =? 0 then 0 else 1 in
  binary_normalize 53 1024 (2 * q + sticky) (- k - 1) false.

(** The binary64 value nearest to [m * 10 ^ e10], for [0 <= m]. *)
Definition round_decimal (m e10 : Z) : number :=
  if m =? 0 then pos_zero
  else
    let len := decimal_length m in
    if 309 <=? len - 1 + e10 then Infinity
    else if len + e10 <=? -325 then pos_zero
    else if 0 <=? e10 then number_of_Z (m * 10 ^ e10)
    else round_ratio m (10 ^ (- e10)).

Definition starts_with (p s : string) : option string :=
  if String.prefix p s then
    Some (substring (String.length p) (String.length s - String.length p) s)
  else None.

(** An optional sign: the factor to apply and the rest of the text. *)
Definition read_sign (s : string) : bool * string :=
  match s with
  | String "-" rest => (true, rest)
  | String "+" rest => (false, rest)
  | _ => (false, s)
  end.

(** [ExponentPart], when present: the exponent and what follows; [None]
    when an [e] is not followed by an integer. *)
Definition read_exponent (s : string) : option (Z * string) :=
  match s with
  | String c rest =>
      if (code c =? 101) || (code c =? 69) then
        let '(neg, r1) := read_sign rest in
        let '(e, n, r2) := read_digits 10 r1 0 0%nat in
        match n with
        | O => None
        | _ => Some (if neg then - e else e, r2)
        end
      else Some (0, s)
  | EmptyString => Some (0, s)
  end.

(** [StrUnsignedDecimalLiteral]: its value and what follows. *)
Definition read_unsigned_decimal (s : string) : option (number * string) :=
  match starts_with "Infinity" s with
  | Some rest => Some (Infinity, rest)
  | None =>
      let '(i, ni, r1) := read_digits 10 s 0 0%nat in
      let '(m, nf, r2) :=
        match r1 with
        | String "." r =>
            let '(m, n, r') := read_digits 10 r i 0%nat in (m, n, r')
        | _ => (i, 0%nat, r1)
        end in
      match (ni + nf)%nat with
      | O => None
      | _ =>
          match read_exponent r2 with
          | Some (e, r3) => Some (round_decimal m (e - Z.of_nat nf), r3)
          | None => None
          end
      end
  end.

(** [NonDecimalIntegerLiteral]: [0x], [0o] or [0b] and digits. *)
Definition read_non_decimal (s : string) : option (number * string) :=
  match s with
  | String "0" (String p rest) =>
      let radix :=
        if (code p =? 120) || (code p =? 88) then Some 16
        else if (code p =? 111) || (code p =? 79) then Some 8
        else if (code p =? 98) || (code p =? 66) then Some 2
        else None in
      match radix with
      | Some r =>
          let '(v, n, rest') := read_digits r rest 0 0%nat in
          match n with
          | O => None
          | _ => Some (number_of_Z v, rest')
          end
      | None => None
      end
  | _ => None
  end.

(** [StringToNumber]. *)
Definition StringToNumber (s : string) : number :=
  let t := skip_ws s in
  match t with
  | EmptyString => pos_zero
  | _ =>
      let parsed :=
        match read_non_decimal t with
        | Some r => Some r
        | None =>
            let '(neg, r1) := read_sign t in
            match read_unsigned_decimal r1 with
            | Some (v, r2) => Some (if neg then SFopp v else v, r2)
            | None => None
            end
        end in
      match parsed with
      | Some (v, rest) =>
          match skip_ws rest with
          | EmptyString => v
          | _ => NaN
          end
      | None => NaN
      end
  end.

(** [parseInt] on a string, no radix given. *)
Definition parseIntString (s : string) : number :=
  let '(neg, r1) := read_sign (skip_ws s) in
  let '(radix, r2) :=
    match r1 with
    | String "0" (String p rest) =>
        if (code p =? 120) || (code p =? 88) then (16, rest) else (10, r1)
    | _ => (10, r1)
    end in
  let '(v, n, _) := read_digits radix r2 0 0%nat in
  match n with
  | O => NaN
  | _ =>
      if v =? 0 then (if neg then neg_zero else pos_zero)
      else number_of_Z (if neg then - v else v)
  end.

(** A positive finite number as an exact fraction. *)
Definition fraction_of (m : positive) (e : Z) : Z * Z :=
  if 0 <=? e then (Z.pos m * 2 ^ e, 1) else (Z.pos m, 2 ^ (- e)).

(** [x < 10 ^ n] for the fraction [x]. *)
Definition below_pow10 (x : Z * Z) (n : Z) : bool :=
  let '(num, den) := x in
  if 0 <=? n then num <? den * 10 ^ n else num * 10 ^ (- n) <? den.

(** The [n] with [10 ^ (n - 1) <= x < 10 ^ n], searched around a first
    guess from the binary length. *)
Fixpoint settle (fuel : nat) (x : Z * Z) (n : Z) : Z :=
  match fuel with
  | O => n
  | S fuel' =>
      if negb (below_pow10 x n) then settle fuel' x (n + 1)
      else if below_pow10 x (n - 1) then settle fuel' x (n - 1)
      else n
  end.

Definition decimal_exponent (m : positive) (e : Z) : Z :=
  let bits := Z.log2 (Z.pos m) + e in
  settle 8 (fraction_of m e) (bits * 30103 / 100000 + 1).

(** [floor (x / 10 ^ p)]. *)
Definition floor_scaled (x : Z * Z) (p : Z) : Z :=
  let '(num, den) := x in
  if 0 <=? p then num / (den * 10 ^ p) else (num * 10 ^ (- p)) / den.

(** Whether [s * 10 ^ p] is at most as far from [x] as [(s + 1) * 10 ^ p];
    at equal distance the even one is preferred. *)
Definition lower_is_closer (x : Z * Z) (s p : Z) : bool :=
  let '(num, den) := x in
  let '(l, r) :=
    if 0 <=? p then (2 * num, (2 * s + 1) * 10 ^ p * den)
    else (2 * num * 10 ^ (- p), (2 * s + 1) * den) in
  (l <? r) || ((l =? r) && Z.even s).

Definition same_number (x y : number) : bool :=
  match x, y with
  | S754_finite s m e, S754_finite s' m' e' =>
      Bool.eqb s s' && (Z.pos m =? Z.pos m') && (e =? e')
  | _, _ => false
  end.

(** The digits [s] and the exponent [n] of [Number::toString]: the least
    number [k] of digits for which some [s * 10 ^ (n - k)] converts back
    to the number, and among those the closest. *)
Fixpoint shortest (fuel : nat) (k : Z) (m : positive) (e : Z) (n0 : Z)
  : Z * Z :=
  let x := fraction_of m e in
  let p := n0 - k in
  let lo := floor_scaled x p in
  let hi := lo + 1 in
  let ok s := same_number (round_decimal s p) (S754_finite false m e) in
  let pick s := if s =? 10 ^ k then (s / 10, n0 + 1) else (s, n0) in
  match fuel with
  | O => pick (if lower_is_closer x lo p then lo else hi)
  | S fuel' =>
      match ok lo, ok hi with
      | true, true => pick (if lower_is_closer x lo p then lo else hi)
      | true, false => pick lo
      | false, true => pick hi
      | false, false => shortest fuel' (k + 1) m e n0
      end
  end.

Definition zeros (n : Z) : string := String.concat "" (repeat "0" (Z.to_nat n)).

(** The text of a positive finite number. *)
Definition positive_to_string (m : positive) (e : Z) : string :=
  let '(s, n) := shortest 16 1 m e (decimal_exponent m e) in
  let digits := pretty s in
  let k := Z.of_nat (String.length digits) in
  if (k <=? n) && (n <=? 21) then digits ++ zeros (n - k)
  else if (0 <? n) && (n <=? 21) then
    substring 0 (Z.to_nat n) digits ++ "."
    ++ substring (Z.to_nat n) (Z.to_nat (k - n)) digits
  else if (-6 <? n) && (n <=? 0) then "0." ++ zeros (- n) ++ digits
  else
    let exponent :=
      (if 0 <=? n - 1 then "+" else "-") ++ pretty (Z.abs (n - 1)) in
    if k =? 1 then digits ++ "e" ++ exponent
    else substring 0 1 digits ++ "."
         ++ substring 1 (Z.to_nat (k - 1)) digits ++ "e" ++ exponent.

(** [Number::toString], radix 10. *)
Definition NumberToString (x : number) : string :=
  match x with
  | S754_nan => "NaN"
  | S754_zero _ => "0"
  | S754_infinity false => "Infinity"
  | S754_infinity true => "-Infinity"
  | S754_finite false m e => positive_to_string m e
  | S754_finite true m e => "-" ++ positive_to_string m e
  end.

End ReferenceHost.

(** The three conversions together. *)
Definition reference_host : HostNumerics := {|
  StringToNumber := ReferenceHost.StringToNumber;
  NumberToString := ReferenceHost.NumberToString;
  parseIntString := ReferenceHost.parseIntString
|}.

(** Lower case for the letters A to Z; the other bytes are kept. *)
Definition ascii_lower (c : ascii) : ascii :=
  let n := nat_of_ascii c in
  if Nat.leb 65 n && Nat.leb n 90 then ascii_of_nat (n + 32) else c.

Fixpoint lower (s : string) : string :=
  match s with
  | EmptyString => EmptyString
  | String c rest => String (ascii_lower c) (lower rest)
  end.

Definition reference_text : HostText := {| toLowerCase := lower |}.

(** ** Data of the repository's tests *)

Module TestData.

Definition num (z : Z) : prim := PNumber (number_of_Z z).

Definition stats_object (l : list (CategoryName * prim)) : value :=
  VObject (list_to_map (map (fun cp => (key (fst cp), snd cp)) l)).

Definition six (i s v d p c : Z) : value :=
  stats_object [(intelligence, num i); (strength, num s); (speed, num v);
                (durability, num d); (power, num p); (combat, num c)].

(** The first rows of the table; the tests quote the ids, the names and
    the powerstats of the first two. *)
Definition a_bomb : Superhero :=
  {| id := num 1; name := PString "A-Bomb"; image := PUndefined;
     powerstats := six 38 100 17 80 24 64 |}.

Definition ant_man : Superhero :=
  {| id := num 2; name := PString "Ant-Man"; image := PUndefined;
     powerstats := six 100 18 23 28 32 32 |}.

Definition bane : Superhero :=
  {| id := num 3; name := PString "Bane"; image := PUndefined;
     powerstats := six 88 38 23 56 51 95 |}.

(** The mocked heroes of [error-handling.spec.ts], as they arrive after
    [JSON.stringify]: a property set to [undefined] is left out. *)
Definition hero_A : Superhero :=
  {| id := num 1; name := PString "Hero A"; image := PString "test1.jpg";
     powerstats :=
       stats_object [(intelligence, PNull); (strength, num 0);
                     (speed, num (-5)); (durability, PString "invalid");
                     (combat, num 50)] |}.

Definition hero_B : Superhero :=
  {| id := num 2; name := PString "Hero B"; image := PString "test2.jpg";
     powerstats := six 100 75 60 80 90 85 |}.

Definition hero_with_missing_stats : Superhero :=
  {| id := num 1; name := PString "Hero With Missing Stats";
     image := PString "test.jpg";
     powerstats :=
       stats_object [(intelligence, PNull); (strength, PString "invalid");
                     (durability, num 50); (power, num 50);
                     (combat, num 50)] |}.

Definition hero_with_no_stats : Superhero :=
  {| id := num 2; name := PString "Hero With No Stats";
     image := PString "test.jpg"; powerstats := VPrim PUndefined |}.

Definition table : list Superhero := [a_bomb; ant_man; bane].

End TestData.

(** ** Vocabulary of the properties *)

Local Close Scope string_scope.

(** *** Selections *)

(** No two positions of the selection hold entities whose ids are [===]. *)
Definition distinct_ids (sel : list Superhero) : Prop :=
  forall (i j : nat) (a b : Superhero),
    i <> j -> sel !! i = Some a -> sel !! j = Some b ->
    Selection.same_id a b = false.

(** The invariant of the data model: at most two entities, no id twice. *)
Definition valid_selection (sel : list Superhero) : Prop :=
  (length sel <= 2)%nat /\ distinct_ids sel.

(** The same, in the shape in which the reducer maintains it: every
    entity differs in id from all the later ones. *)
Fixpoint ids_apart (sel : list Superhero) : Prop :=
  match sel with
  | [] => True
  | h :: rest =>
      Forall (fun later => Selection.same_id h later = false) rest
      /\ ids_apart rest
  end.

(** *** Comparison results *)

(** Sides exchanged: [1] and [2] swap, a tie stays a tie. *)
Definition flip (w : Backend.Winner) : Backend.Winner :=
  match w with
  | Backend.W1 => Backend.W2
  | Backend.W2 => Backend.W1
  | Backend.Tie => Backend.Tie
  end.

Definition mirror_category (c : Backend.CategoryResult)
  : Backend.CategoryResult :=
  {| Backend.name := Backend.name c;
     Backend.winner := flip (Backend.winner c);
     Backend.id1_value := Backend.id2_value c;
     Backend.id2_value := Backend.id1_value c |}.

(** The mirror image of a whole result. *)
Definition mirror (r : Backend.ComparisonResult) : Backend.ComparisonResult :=
  {| Backend.id1 := Backend.id2 r;
     Backend.id2 := Backend.id1 r;
     Backend.categories := map mirror_category (Backend.categories r);
     Backend.overall_winner := flip (Backend.overall_winner r) |}.

Definition Winner_eq_dec (a b : Backend.Winner) : {a = b} + {a <> b}.
Proof. decide equality. Defined.

(** How many categories a side has won. *)
Definition wins (w : Backend.Winner) (cs : list Backend.CategoryResult) : nat :=
  count_occ Winner_eq_dec (map Backend.winner cs) w.

(** *** Requests *)

(** The three answers with status 400. *)
Definition required_error : Backend.response :=
  Backend.Json 400
    (Backend.ErrorBody "Both id1 and id2 query parameters are required"
                       "invalid_request").

Definition not_numbers_error : Backend.response :=
  Backend.Json 400
    (Backend.ErrorBody "id1 and id2 must be valid numbers" "invalid_request").

Definition not_found_error : Backend.response :=
  Backend.Json 400
    (Backend.ErrorBody "One or both superheroes not found" "invalid_request").

(** The answer with the two sides exchanged: a result is mirrored, any
    other answer stays as it is. *)
Definition mirror_response (r : Backend.response) : Backend.response :=
  match r with
  | Backend.Json code (Backend.ResultBody result) =>
      Backend.Json code (Backend.ResultBody (mirror result))
  | other => other
  end.

Section Requests.
Context `{HostNumerics}.

(** An identifier is missing (not there, or empty) or not numeric. *)
Definition bad_id (q : option string) : bool :=
  negb (ToBoolean (Backend.query_param q))
  || isNaN (ToNumber (Backend.query_param q)).

(** The entity an identifier resolves to in the store, if any. *)
Definition resolve (q : option string) (superheroes : list Superhero)
  : option Superhero :=
  List.find
    (fun h =>
       number_equals (ToNumber (id h)) (ToNumber (Backend.query_param q)))
    superheroes.

End Requests.

(** The number [getSafeStat] returns; [+0] would stand in for an
    exception, which [getSafeStat] never raises. *)
Definition safe `{HostNumerics} (hero : Superhero) (stat : CategoryName)
  : number :=
  default pos_zero (Frontend.getSafeStat hero stat).

(** In how many of the given stats the first entity reads strictly
    higher than the second. *)
Definition stat_wins `{HostNumerics} (x y : Superhero)
  (stats : list CategoryName) : nat :=
  length (List.filter (fun stat => js_gt (safe x stat) (safe y stat)) stats).

(** *** The comparison view and the tool *)

(** What every step of the component of [App.js] keeps. *)
Definition app_invariant (s : App.state) : Prop :=
  (length (App.selectedHeroes s) <= 2)%nat
  /\ ids_apart (App.selectedHeroes s)
  /\ (App.currentView s = App.comparison ->
      length (App.selectedHeroes s) = 2%nat).

(** The row of a stat, as a function of the two safe reads. *)
Definition row_of `{HostNumerics} (hero1 hero2 : Superhero)
  (stat : CategoryName) : App.row :=
  {| App.stat1 := safe hero1 stat;
     App.stat := stat;
     App.stat2 := safe hero2 stat;
     App.winner :=
       if js_gt (safe hero1 stat) (safe hero2 stat) then App.hero1_mark
       else if js_gt (safe hero2 stat) (safe hero1 stat) then App.hero2_mark
       else App.tie_mark |}.

Definition mark_eqb (a b : App.mark) : bool :=
  match a, b with
  | App.hero1_mark, App.hero1_mark
  | App.hero2_mark, App.hero2_mark
  | App.tie_mark, App.tie_mark => true
  | _, _ => false
  end.

(** How many rows carry a given class. *)
Definition marked (m : App.mark) (rows : list App.row) : nat :=
  length (List.filter (fun r => mark_eqb (App.winner r) m) rows).

(** The front end and the back end read the same number in every stat of
    an entity. *)
Definition reads_agree `{HostNumerics} (hero : Superhero) : Prop :=
  forall stat : CategoryName,
    safe hero stat = ToNumber (OptGet (powerstats hero) stat).



(** What the tool makes of the entity a route found. *)
Definition tool_answer `{HostNumerics} `{HostText} (r : Server.reply)
  : Mcp.outcome string :=
  match r with
  | Server.JsonHero hero =>
      match Mcp.formatSuperheroMarkdown hero with
      | Some text => Mcp.Returned text
      | None => Mcp.Thrown Mcp.TypeError
      end
  | _ => Mcp.Thrown (Mcp.Error "Superhero not found")
  end.

(** * Facts about numbers and [===] *)

Lemma SFcompare_antisym (x y : number) :
  SFcompare y x = option_map CompOpp (SFcompare x y).
Proof.
  destruct x as [sx|sx| |sx mx ex], y as [sy|sy| |sy my ey]; simpl;
    try reflexivity;
    try (destruct sx; reflexivity);
    try (destruct sy; reflexivity);
    try (destruct sx, sy; reflexivity).
  destruct sx, sy; simpl; try reflexivity;
    rewrite (Z.compare_antisym ex ey);
    destruct (ex ?= ey)%Z; simpl; try reflexivity;
    rewrite !Pos.compare_cont_spec; simpl;
    rewrite (Pos.compare_antisym mx my);
    destruct (mx ?= my)%positive; reflexivity.
Qed.

Lemma js_gt_asym (x y : number) : js_gt x y = true -> js_gt y x = false.
Proof.
  unfold js_gt, SFltb. rewrite (SFcompare_antisym y x).
  destruct (SFcompare y x) as [[]|]; simpl; congruence.
Qed.

Lemma js_gt_irrefl (x : number) : js_gt x x = false.
Proof.
  destruct (js_gt x x) eqn:E; [|reflexivity].
  pose proof (js_gt_asym x x E). congruence.
Qed.

Lemma js_gt_NaN_l (x : number) : js_gt NaN x = false.
Proof. destruct x; reflexivity. Qed.

Lemma js_gt_NaN_r (x : number) : js_gt x NaN = false.
Proof. destruct x; reflexivity. Qed.

Lemma isNaN_true (x : number) : isNaN x = true <-> x = NaN.
Proof. destruct x; simpl; split; intros E; try discriminate; reflexivity. Qed.

Lemma number_equals_sym (x y : number) : number_equals x y = number_equals y x.
Proof.
  unfold number_equals, SFeqb. rewrite (SFcompare_antisym y x).
  destruct (SFcompare y x) as [[]|]; reflexivity.
Qed.

(** [===] on numbers relates two zeros, or two equal values other than
    [NaN]. *)
Lemma number_equals_true (x y : number) :
  number_equals x y = true ->
  (exists s t, x = S754_zero s /\ y = S754_zero t) \/ (x = y /\ x <> NaN).
Proof.
  unfold number_equals, SFeqb.
  destruct x as [sx|sx| |sx mx ex], y as [sy|sy| |sy my ey]; simpl;
    try discriminate;
    try (destruct sx; discriminate);
    try (destruct sy; discriminate).
  - intros _. left. eauto.
  - destruct sx, sy; try discriminate; intros _; right;
      (split; [reflexivity | unfold NaN; discriminate]).
  - destruct sx, sy; try discriminate;
      destruct (ex ?= ey)%Z eqn:Ee; try discriminate;
      apply Z.compare_eq in Ee; subst ey;
      rewrite Pos.compare_cont_spec; simpl;
      destruct (mx ?= my)%positive eqn:Em; try discriminate;
      apply Pos.compare_eq in Em; subst my;
      intros _; right; (split; [reflexivity | unfold NaN; discriminate]).
Qed.

Lemma number_equals_trans (x y z : number) :
  number_equals x y = true -> number_equals y z = true ->
  number_equals x z = true.
Proof.
  intros Hxy Hyz.
  destruct (number_equals_true _ _ Hxy) as [(s & t & -> & ->)|[-> _]];
    [|exact Hyz].
  destruct (number_equals_true _ _ Hyz) as [(s' & t' & _ & ->)|[<- _]];
    reflexivity.
Qed.

Lemma strict_equals_sym (a b : prim) : strict_equals a b = strict_equals b a.
Proof.
  destruct a, b; simpl; try reflexivity.
  - destruct b, b0; reflexivity.
  - apply number_equals_sym.
  - apply String.eqb_sym.
Qed.

Lemma strict_equals_trans (a b c : prim) :
  strict_equals a b = true -> strict_equals b c = true ->
  strict_equals a c = true.
Proof.
  destruct a, b; simpl; try discriminate; destruct c; simpl;
    try discriminate; try (intros; reflexivity).
  - destruct b, b0, b1; simpl; congruence.
  - apply number_equals_trans.
  - intros E1 E2. apply String.eqb_eq in E1, E2. subst.
    apply String.eqb_refl.
Qed.

(** * The selection reducer *)

Section SelectionFacts.
Import Selection.

Lemma same_id_sym (a b : Superhero) : same_id a b = same_id b a.
Proof. apply strict_equals_sym. Qed.

Lemma same_id_trans (a b c : Superhero) :
  same_id a b = true -> same_id b c = true -> same_id a c = true.
Proof. apply strict_equals_trans. Qed.

(** [prev.find(...)] is truthy exactly when [prev.some(...)] is. *)
Lemma find_isHeroSelected (sel : list Superhero) (hero : Superhero) :
  isHeroSelected sel (id hero) = true <->
  exists h, List.find (fun h => same_id h hero) sel = Some h.
Proof.
  unfold isHeroSelected. induction sel as [|a sel IH]; simpl.
  - split; [discriminate | intros [h E]; discriminate].
  - fold (same_id a hero). destruct (same_id a hero); simpl.
    + split; eauto.
    + exact IH.
Qed.

Lemma find_absent (sel : list Superhero) (hero : Superhero) :
  isHeroSelected sel (id hero) = false <->
  List.find (fun h => same_id h hero) sel = None.
Proof.
  pose proof (find_isHeroSelected sel hero) as [H1 H2].
  destruct (List.find (fun h => same_id h hero) sel) as [h|].
  - rewrite H2 by eauto. split; discriminate.
  - destruct (isHeroSelected sel (id hero)); [|split; reflexivity].
    destruct (H1 eq_refl) as [h Eh]. discriminate.
Qed.

Lemma absent_Forall (sel : list Superhero) (hero : Superhero) :
  List.find (fun h => same_id h hero) sel = None ->
  Forall (fun h => same_id h hero = false) sel.
Proof.
  intros E. apply List.Forall_forall. intros h Hin.
  exact (List.find_none _ _ E h Hin).
Qed.

(** The three transitions, each under its guard. *)
Lemma toggle_present (hero : Superhero) (sel : list Superhero) :
  isHeroSelected sel (id hero) = true ->
  handleHeroSelection hero sel =
  List.filter (fun h => negb (same_id h hero)) sel.
Proof.
  intros Hp. apply find_isHeroSelected in Hp as [h E].
  unfold handleHeroSelection. rewrite E. reflexivity.
Qed.

Lemma toggle_absent_room (hero : Superhero) (sel : list Superhero) :
  isHeroSelected sel (id hero) = false -> (length sel < 2)%nat ->
  handleHeroSelection hero sel = sel ++ [hero].
Proof.
  intros Ha Hl. apply find_absent in Ha.
  unfold handleHeroSelection. rewrite Ha.
  destruct sel as [|a [|b rest]]; simpl in *; try reflexivity; lia.
Qed.

Lemma toggle_absent_full (hero : Superhero) (sel : list Superhero) :
  isHeroSelected sel (id hero) = false -> (2 <= length sel)%nat ->
  exists second, sel !! 1%nat = Some second /\
                 handleHeroSelection hero sel = [second; hero].
Proof.
  intros Ha Hl. apply find_absent in Ha.
  unfold handleHeroSelection. rewrite Ha.
  destruct sel as [|a [|b rest]]; simpl in *; try lia.
  exists b. split; reflexivity.
Qed.

(** Filtering keeps the entities apart. *)
Lemma ids_apart_filter (f : Superhero -> bool) (sel : list Superhero) :
  ids_apart sel -> ids_apart (List.filter f sel).
Proof.
  induction sel as [|a sel IH]; simpl; [trivial|].
  intros [Ha Hs]. destruct (f a); simpl; [split|]; auto.
  apply List.Forall_forall. intros x Hx.
  apply List.filter_In in Hx as [Hx _].
  rewrite List.Forall_forall in Ha. auto.
Qed.

Lemma ids_apart_snoc (sel : list Superhero) (hero : Superhero) :
  ids_apart sel -> Forall (fun h => same_id h hero = false) sel ->
  ids_apart (sel ++ [hero]).
Proof.
  induction sel as [|a sel IH]; simpl.
  - intros _ _. split; [constructor | exact I].
  - intros [Ha Hs] Hf. inversion Hf as [|? ? Hah Hrest]; subst. split.
    + apply Forall_app. split; [exact Ha|].
      constructor; [exact Hah | constructor].
    + apply IH; assumption.
Qed.

(** Preservation: one toggle keeps the size bound and keeps ids apart. *)
Lemma toggle_preserves (hero : Superhero) (sel : list Superhero) :
  (length sel <= 2)%nat -> ids_apart sel ->
  (length (handleHeroSelection hero sel) <= 2)%nat /\
  ids_apart (handleHeroSelection hero sel).
Proof.
  intros Hl Hd. unfold handleHeroSelection.
  destruct (List.find (fun h => same_id h hero) sel) eqn:E.
  - split; [|apply ids_apart_filter; exact Hd].
    pose proof (List.filter_length_le (fun h => negb (same_id h hero)) sel).
    lia.
  - pose proof (absent_Forall _ _ E) as Hf.
    destruct sel as [|a [|b rest]].
    + simpl. split; [lia | split; [constructor | exact I]].
    + split; [simpl; lia | apply (ids_apart_snoc [a]); assumption].
    + split; [simpl; lia|].
      inversion Hf as [|? ? _ Hf']; subst.
      inversion Hf' as [|? ? Hb _]; subst.
      simpl. repeat split; try constructor; auto.
Qed.

Lemma step_preserves (sel : list Superhero) (ev : event) :
  (length sel <= 2)%nat /\ ids_apart sel ->
  (length (step sel ev) <= 2)%nat /\ ids_apart (step sel ev).
Proof.
  intros [Hl Hd]. destruct ev as [hero|]; simpl.
  - apply toggle_preserves; assumption.
  - split; [lia | exact I].
Qed.

Lemma fold_step_preserves (evs : list event) (sel : list Superhero) :
  (length sel <= 2)%nat /\ ids_apart sel ->
  (length (fold_left step evs sel) <= 2)%nat /\
  ids_apart (fold_left step evs sel).
Proof.
  revert sel. induction evs as [|ev evs IH]; intros sel Hs; simpl.
  - exact Hs.
  - apply IH, step_preserves, Hs.
Qed.

(** The two shapes of "no id twice" agree. *)
Lemma ids_apart_lookup (sel : list Superhero) :
  ids_apart sel ->
  forall (i j : nat) (a b : Superhero),
    (i < j)%nat -> sel !! i = Some a -> sel !! j = Some b ->
    same_id a b = false.
Proof.
  induction sel as [|h sel IH]; intros Hd i j a b Hij Ha Hb.
  - discriminate.
  - destruct Hd as [Hh Hd]. destruct j as [|j]; [lia|].
    destruct i as [|i]; simpl in Ha, Hb.
    + injection Ha as <-. rewrite List.Forall_forall in Hh.
      apply Hh. apply list_elem_of_In. eapply list_elem_of_lookup_2; eauto.
    + apply (IH Hd i j); [lia | assumption | assumption].
Qed.

Lemma ids_apart_distinct (sel : list Superhero) :
  ids_apart sel <-> distinct_ids sel.
Proof.
  split.
  - intros Hd i j a b Hij Ha Hb.
    destruct (Nat.lt_total i j) as [Hlt|[Heq|Hgt]]; [|contradiction|].
    + exact (ids_apart_lookup sel Hd i j a b Hlt Ha Hb).
    + rewrite same_id_sym. exact (ids_apart_lookup sel Hd j i b a Hgt Hb Ha).
  - induction sel as [|h sel IH]; intros Hd; simpl; [trivial|]. split.
    + apply List.Forall_forall. intros x Hx.
      apply list_elem_of_In, list_elem_of_lookup in Hx as [k Hk].
      apply (Hd 0%nat (S k)); [lia | reflexivity | exact Hk].
    + apply IH. intros i j a b Hij Ha Hb.
      apply (Hd (S i) (S j)); [lia | exact Ha | exact Hb].
Qed.

(** Under the invariant at most one member carries a given id, so the
    removal branch drops exactly one entity. *)
Lemma filter_drops_one (hero : Superhero) (sel : list Superhero) :
  ids_apart sel -> isHeroSelected sel (id hero) = true ->
  S (length (List.filter (fun h => negb (same_id h hero)) sel)) = length sel.
Proof.
  induction sel as [|a sel IH]; simpl; [discriminate|].
  intros [Ha Hd]. fold (same_id a hero).
  destruct (same_id a hero) eqn:E; simpl.
  - intros _. f_equal.
    assert (Hall : Forall (fun h => negb (same_id h hero) = true) sel).
    { rewrite List.Forall_forall in Ha. apply List.Forall_forall.
      intros x Hx. destruct (same_id x hero) eqn:Ex; [|reflexivity].
      rewrite same_id_sym in Ex.
      pose proof (Ha x Hx) as Hax. simpl in Hax.
      rewrite (same_id_trans a hero x E Ex) in Hax. discriminate. }
    clear -Hall. induction Hall as [|x l Hx _ IHl]; simpl; [reflexivity|].
    rewrite Hx. simpl. f_equal. exact IHl.
  - intros Hp. f_equal. apply IH; assumption.
Qed.

Lemma filter_removes (hero : Superhero) (sel : list Superhero) :
  isHeroSelected (List.filter (fun h => negb (same_id h hero)) sel) (id hero)
  = false.
Proof.
  unfold isHeroSelected. induction sel as [|a sel IH]; simpl; [reflexivity|].
  destruct (same_id a hero) eqn:E; simpl; [exact IH|].
  fold (same_id a hero). rewrite E. exact IH.
Qed.

End SelectionFacts.

(** * The back-end comparison *)

Section BackendFacts.
Context `{HostNumerics}.
Import Backend.

Lemma flip_involutive (w : Winner) : flip (flip w) = w.
Proof. destruct w; reflexivity. Qed.

(** The verdict on two numbers, and the verdict with the sides exchanged. *)
Lemma verdict_flip (v1 v2 : number) :
  (if js_gt v2 v1 then W1 else if js_gt v1 v2 then W2 else Tie)
  = flip (if js_gt v1 v2 then W1 else if js_gt v2 v1 then W2 else Tie).
Proof.
  destruct (js_gt v1 v2) eqn:E12.
  - rewrite (js_gt_asym _ _ E12). reflexivity.
  - destruct (js_gt v2 v1); reflexivity.
Qed.

Lemma category_mirror (a b : Superhero) (cat : CategoryName) :
  category b a cat = mirror_category (category a b cat).
Proof.
  unfold category, mirror_category. simpl. f_equal. apply verdict_flip.
Qed.

(** The handler's two [filter(...).length] are the win counts. *)
Lemma length_filter_W1 (cs : list CategoryResult) :
  length (List.filter is_W1 cs) = wins W1 cs.
Proof.
  unfold wins, is_W1. induction cs as [|c cs IH]; simpl; [reflexivity|].
  destruct (winner c); simpl; rewrite IH; reflexivity.
Qed.

Lemma length_filter_W2 (cs : list CategoryResult) :
  length (List.filter is_W2 cs) = wins W2 cs.
Proof.
  unfold wins, is_W2. induction cs as [|c cs IH]; simpl; [reflexivity|].
  destruct (winner c); simpl; rewrite IH; reflexivity.
Qed.

Lemma wins_mirror (w : Winner) (cs : list CategoryResult) :
  wins w (map mirror_category cs) = wins (flip w) cs.
Proof.
  unfold wins. induction cs as [|c cs IH]; simpl; [reflexivity|].
  rewrite IH. destruct w, (winner c); reflexivity.
Qed.

Lemma overall_winner_wins (a b : Superhero) (n1 n2 : number) :
  let r := compare a b n1 n2 in
  overall_winner r =
    if Nat.ltb (wins W2 (categories r)) (wins W1 (categories r)) then W1
    else if Nat.ltb (wins W1 (categories r)) (wins W2 (categories r)) then W2
    else Tie.
Proof.
  unfold compare. cbn [overall_winner categories].
  rewrite length_filter_W1, length_filter_W2. reflexivity.
Qed.

Lemma categories_mirror (a b : Superhero) (n1 n2 m1 m2 : number) :
  categories (compare b a n2 n1)
  = map mirror_category (categories (compare a b m1 m2)).
Proof.
  unfold compare. cbn [categories].
  rewrite List.map_map. apply List.map_ext. intros cat. apply category_mirror.
Qed.

Lemma compare_mirror (a b : Superhero) (n1 n2 : number) :
  compare b a n2 n1 = mirror (compare a b n1 n2).
Proof.
  change (compare b a n2 n1) with
    {| id1 := n2; id2 := n1;
       categories := categories (compare b a n2 n1);
       overall_winner := overall_winner (compare b a n2 n1) |}.
  unfold mirror.
  change (id1 (compare a b n1 n2)) with n1.
  change (id2 (compare a b n1 n2)) with n2.
  rewrite (overall_winner_wins b a n2 n1),
          (overall_winner_wins a b n1 n2). cbv zeta.
  rewrite (categories_mirror a b n1 n2 n1 n2), !wins_mirror.
  cbn [flip]. f_equal.
  set (w1 := wins W1 _). set (w2 := wins W2 _).
  destruct (Nat.ltb_spec w1 w2), (Nat.ltb_spec w2 w1); try reflexivity; lia.
Qed.

Lemma compare_names (a b : Superhero) (n1 n2 : number) :
  map name (categories (compare a b n1 n2)) = categoriesOrder.
Proof. reflexivity. Qed.

(** A category in which one side does not coerce to a number is a tie. *)
Lemma category_NaN (a b : Superhero) (cat : CategoryName) :
  isNaN (ToNumber (OptGet (powerstats a) cat)) = true \/
  isNaN (ToNumber (OptGet (powerstats b) cat)) = true ->
  winner (category a b cat) = Tie.
Proof.
  unfold category. simpl.
  intros [E|E]; apply isNaN_true in E; rewrite E;
    rewrite ?js_gt_NaN_l, ?js_gt_NaN_r; reflexivity.
Qed.

(** An entity against itself ties everywhere. *)
Lemma category_self (a : Superhero) (cat : CategoryName) :
  winner (category a a cat) = Tie.
Proof. unfold category. simpl. rewrite js_gt_irrefl. reflexivity. Qed.

Lemma compare_self (a : Superhero) (n1 n2 : number) :
  Forall (fun c => winner c = Tie) (categories (compare a a n1 n2)) /\
  overall_winner (compare a a n1 n2) = Tie.
Proof.
  assert (Hall : Forall (fun c => winner c = Tie)
                        (categories (compare a a n1 n2))).
  { simpl. repeat constructor; apply category_self. }
  split; [exact Hall|].
  rewrite overall_winner_wins. cbv zeta.
  assert (Hz : forall cs w, w <> Tie ->
             Forall (fun c => winner c = Tie) cs -> wins w cs = 0%nat).
  { intros cs w Hw Hcs. unfold wins.
    induction Hcs as [|c l Hc _ IHl]; simpl; [reflexivity|].
    rewrite Hc. destruct (Winner_eq_dec Tie w); [congruence | exact IHl]. }
  rewrite (Hz _ W1 ltac:(discriminate) Hall).
  rewrite (Hz _ W2 ltac:(discriminate) Hall). reflexivity.
Qed.

End BackendFacts.

(** * The front-end comparison *)

Section FrontendFacts.
Context `{HostNumerics}.
Import Frontend.

(** A truthy value has properties to read. *)
Lemma Get_truthy (base : value) (c : CategoryName) :
  truthy base = true -> Get base c = Some (OptGet base c).
Proof.
  unfold OptGet. destruct base as [[| |b|n|s]|props]; simpl;
    intros E; try discriminate; reflexivity.
Qed.

(** A primitive carries none of the six powerstats. *)
Lemma OptGet_prim (p : prim) (c : CategoryName) :
  OptGet (VPrim p) c = PUndefined.
Proof. destruct p; reflexivity. Qed.

(** [getSafeStat] in one piece, on the raw value [powerstats?.[stat]]. *)
Lemma getSafeStat_raw (hero : Superhero) (stat : CategoryName) :
  getSafeStat hero stat =
  Some (match OptGet (powerstats hero) stat with
        | PUndefined | PNull => pos_zero
        | raw => if isNaN (parseInt raw) then pos_zero else parseInt raw
        end).
Proof.
  unfold getSafeStat. destruct (truthy (powerstats hero)) eqn:T; simpl.
  - rewrite (Get_truthy _ stat T). simpl.
    destruct (OptGet (powerstats hero) stat); reflexivity.
  - destruct (powerstats hero) as [p|props]; [|discriminate].
    rewrite OptGet_prim. reflexivity.
Qed.

(** No exception, and never [NaN]. *)
Lemma getSafeStat_total (hero : Superhero) (stat : CategoryName) :
  getSafeStat hero stat = Some (safe hero stat) /\
  isNaN (safe hero stat) = false.
Proof.
  unfold safe. rewrite getSafeStat_raw. simpl. split; [reflexivity|].
  destruct (OptGet (powerstats hero) stat) as [| |b|n|s]; try reflexivity;
    match goal with |- context [isNaN (parseInt ?r)] =>
      destruct (isNaN (parseInt r)) eqn:E; [reflexivity | exact E]
    end.
Qed.

(** The default: absent, [null], or [NaN] after [parseInt], reads [+0]. *)
Lemma getSafeStat_default (hero : Superhero) (stat : CategoryName) :
  let raw := OptGet (powerstats hero) stat in
  raw = PUndefined \/ raw = PNull \/ isNaN (parseInt raw) = true ->
  getSafeStat hero stat = Some pos_zero.
Proof.
  intros raw Hraw. rewrite getSafeStat_raw. fold raw. clearbody raw.
  destruct Hraw as [->|[->|E]]; try reflexivity.
  destruct raw; try reflexivity; cbv beta iota zeta; rewrite E; reflexivity.
Qed.

Lemma tally_counts (hero1 hero2 : Superhero) (a b : nat) (stat : CategoryName) :
  tally hero1 hero2 (a, b) stat =
  Some ((if js_gt (safe hero1 stat) (safe hero2 stat) then S a else a),
        (if js_gt (safe hero2 stat) (safe hero1 stat) then S b else b)).
Proof.
  unfold tally.
  rewrite (proj1 (getSafeStat_total hero1 stat)),
          (proj1 (getSafeStat_total hero2 stat)). simpl.
  destruct (js_gt (safe hero1 stat) (safe hero2 stat)) eqn:E.
  - rewrite (js_gt_asym _ _ E). reflexivity.
  - destruct (js_gt (safe hero2 stat) (safe hero1 stat)); reflexivity.
Qed.

(** The loop counts, for each side, the stats it reads strictly higher. *)
Lemma forEach_counts (hero1 hero2 : Superhero) (l : list CategoryName)
  (a b : nat) :
  forEach hero1 hero2 l (a, b) =
  Some ((a + stat_wins hero1 hero2 l)%nat, (b + stat_wins hero2 hero1 l)%nat).
Proof.
  revert a b. induction l as [|stat l IH]; intros a b.
  - simpl. rewrite !Nat.add_0_r. reflexivity.
  - cbn [forEach]. rewrite tally_counts. simpl. rewrite IH.
    unfold stat_wins. simpl.
    destruct (js_gt (safe hero1 stat) (safe hero2 stat)),
             (js_gt (safe hero2 stat) (safe hero1 stat)); simpl;
      rewrite ?Nat.add_succ_r; reflexivity.
Qed.

Lemma calculateWinner_counts (hero1 hero2 : Superhero) :
  let a := stat_wins hero1 hero2 stats in
  let b := stat_wins hero2 hero1 stats in
  calculateWinner hero1 hero2 =
  Some (if Nat.ltb b a then
          {| winner := Some hero1; score := score_text a b |}
        else if Nat.ltb a b then
          {| winner := Some hero2; score := score_text b a |}
        else {| winner := None; score := score_text a b |}).
Proof.
  intros a b. unfold calculateWinner. rewrite forEach_counts. simpl.
  fold a b. destruct (Nat.ltb b a), (Nat.ltb a b); reflexivity.
Qed.

(** Exchanging the two heroes names the same winner with the same score. *)
Lemma calculateWinner_swap (hero1 hero2 : Superhero) :
  calculateWinner hero2 hero1 = calculateWinner hero1 hero2.
Proof.
  rewrite !calculateWinner_counts. cbv zeta.
  set (a := stat_wins hero1 hero2 stats).
  set (b := stat_wins hero2 hero1 stats).
  destruct (Nat.ltb_spec a b), (Nat.ltb_spec b a); try reflexivity; try lia.
  replace b with a by lia. reflexivity.
Qed.

End FrontendFacts.

(** * The route *)

Section RouteFacts.
Context `{HostNumerics}.
Import Backend.

(** With a missing or non-numeric identifier the route answers before it
    looks at the store or at the engine. *)
Lemma route_bad_ids
  (engine : Superhero -> Superhero -> number -> number -> ComparisonResult)
  (q1 q2 : option string) (store : option (list Superhero)) :
  bad_id q1 || bad_id q2 = true ->
  compare_route engine q1 q2 store =
    if negb (ToBoolean (query_param q1)) || negb (ToBoolean (query_param q2))
    then required_error else not_numbers_error.
Proof.
  unfold bad_id, compare_route, required_error, not_numbers_error.
  destruct (ToBoolean (query_param q1)), (ToBoolean (query_param q2)),
    (isNaN (ToNumber (query_param q1))), (isNaN (ToNumber (query_param q2)));
    simpl; intros E; try discriminate; reflexivity.
Qed.

(** With two present, numeric identifiers the answer is decided by the
    store. *)
Lemma route_good_ids
  (engine : Superhero -> Superhero -> number -> number -> ComparisonResult)
  (q1 q2 : option string) (store : option (list Superhero)) :
  bad_id q1 || bad_id q2 = false ->
  compare_route engine q1 q2 store =
    match store with
    | None => Send 500 "Internal Server Error"
    | Some superheroes =>
        match resolve q1 superheroes, resolve q2 superheroes with
        | Some hero1, Some hero2 =>
            Json 200 (ResultBody (engine hero1 hero2
                                    (ToNumber (query_param q1))
                                    (ToNumber (query_param q2))))
        | _, _ => not_found_error
        end
    end.
Proof.
  unfold bad_id, compare_route, resolve, not_found_error.
  destruct (ToBoolean (query_param q1)), (ToBoolean (query_param q2)),
    (isNaN (ToNumber (query_param q1))), (isNaN (ToNumber (query_param q2)));
    simpl; intros E; try discriminate; reflexivity.
Qed.

(** An identifier that resolves is numeric: [NaN] is [===] to nothing. *)
Lemma resolve_numeric (q : option string) (superheroes : list Superhero)
  (hero : Superhero) :
  resolve q superheroes = Some hero ->
  isNaN (ToNumber (query_param q)) = false.
Proof.
  unfold resolve. intros E. apply List.find_some in E as [_ E].
  destruct (ToNumber (query_param q)); try reflexivity.
  destruct (ToNumber (id hero)); discriminate.
Qed.

(** Exchanging the two identifiers mirrors a result and leaves every
    other answer as it is. *)
Lemma handler_mirror (q1 q2 : option string) (store : option (list Superhero)) :
  compare_handler q2 q1 store = mirror_response (compare_handler q1 q2 store).
Proof.
  unfold compare_handler.
  destruct (bad_id q1 || bad_id q2) eqn:E.
  - rewrite (route_bad_ids _ q1 q2 store E).
    rewrite (route_bad_ids _ q2 q1 store) by (rewrite orb_comm; exact E).
    rewrite (orb_comm (negb (ToBoolean (query_param q2)))).
    destruct (negb _ || negb _); reflexivity.
  - rewrite (route_good_ids _ q1 q2 store E).
    rewrite (route_good_ids _ q2 q1 store) by (rewrite orb_comm; exact E).
    destruct store as [superheroes|]; [|reflexivity].
    destruct (resolve q1 superheroes), (resolve q2 superheroes);
      try reflexivity.
    simpl. rewrite compare_mirror. reflexivity.
Qed.

End RouteFacts.

(** * The tests of the repository, replayed *)

Example test_replaces_first_selection :
  Selection.run [Selection.Toggle TestData.a_bomb;
                 Selection.Toggle TestData.ant_man;
                 Selection.Toggle TestData.bane]
  = [TestData.ant_man; TestData.bane].
Proof. reflexivity. Qed.

Example test_rapid_interactions :
  Selection.run [Selection.Toggle TestData.a_bomb;
                 Selection.Toggle TestData.ant_man;
                 Selection.Toggle TestData.bane;
                 Selection.Toggle TestData.a_bomb;
                 Selection.Toggle TestData.ant_man]
  = [TestData.a_bomb; TestData.ant_man].
Proof. reflexivity. Qed.

Example test_deselect :
  Selection.run [Selection.Toggle TestData.a_bomb;
                 Selection.Toggle TestData.a_bomb] = [].
Proof. reflexivity. Qed.

Example test_back_to_table :
  Selection.run [Selection.Toggle TestData.a_bomb;
                 Selection.Toggle TestData.ant_man;
                 Selection.Clear] = [].
Proof. reflexivity. Qed.

(** * The properties of the selection *)

(** C4. Selection invariant: starting from the empty selection, after any
    sequence of toggle and clear events the selection holds at most two
    entities, and no two of its positions hold entities with the same
    id. *)
Theorem selection_invariant (evs : list Selection.event) :
  valid_selection (Selection.run evs).
Proof.
  unfold valid_selection, Selection.run.
  destruct (fold_step_preserves evs []) as [Hl Hd].
  - split; [simpl; lia | exact I].
  - split; [exact Hl | apply ids_apart_distinct; exact Hd].
Qed.

(** C5. Sliding-window eviction: on a selection of size two, toggling an
    entity whose id is not present drops the member at index 0 and
    appends the entity at the end, so that the size stays two; and from
    the empty selection, toggling three entities [X], [Y], [Z] of
    pairwise different ids leaves [[Y; Z]]. *)
Theorem sliding_window_eviction
  (sel : list Superhero) (hero X Y Z : Superhero) :
  length sel = 2%nat ->
  Selection.isHeroSelected sel (id hero) = false ->
  Selection.same_id X Y = false ->
  Selection.same_id X Z = false ->
  Selection.same_id Y Z = false ->
  (Selection.handleHeroSelection hero sel = drop 1 sel ++ [hero]
   /\ length (Selection.handleHeroSelection hero sel) = 2%nat
   /\ Selection.handleHeroSelection hero sel !! 0%nat = sel !! 1%nat
   /\ Selection.handleHeroSelection hero sel !! 1%nat = Some hero)
  /\ Selection.run [Selection.Toggle X; Selection.Toggle Y; Selection.Toggle Z]
     = [Y; Z].
Proof.
  intros Hl Ha Hxy Hxz Hyz. split.
  - destruct (toggle_absent_full hero sel Ha) as (second & Hs & ->); [lia|].
    destruct sel as [|a [|b [|c rest]]]; try discriminate.
    simpl in Hs. injection Hs as <-. repeat split.
  - unfold Selection.run. simpl.
    unfold Selection.handleHeroSelection. simpl. rewrite Hxy. simpl.
    rewrite Hxz, Hyz. reflexivity.
Qed.

Lemma sliding_window_eviction_witness :
  length [TestData.a_bomb; TestData.ant_man] = 2%nat
  /\ Selection.isHeroSelected [TestData.a_bomb; TestData.ant_man]
       (id TestData.bane) = false
  /\ Selection.same_id TestData.a_bomb TestData.ant_man = false
  /\ Selection.same_id TestData.a_bomb TestData.bane = false
  /\ Selection.same_id TestData.ant_man TestData.bane = false
  /\ Selection.handleHeroSelection TestData.bane
       [TestData.a_bomb; TestData.ant_man]
     = [TestData.ant_man; TestData.bane]
  /\ Selection.run [Selection.Toggle TestData.a_bomb;
                    Selection.Toggle TestData.ant_man;
                    Selection.Toggle TestData.bane]
     = [TestData.ant_man; TestData.bane].
Proof.
  do 5 (split; [reflexivity|]).
  destruct (sliding_window_eviction
              [TestData.a_bomb; TestData.ant_man] TestData.bane
              TestData.a_bomb TestData.ant_man TestData.bane
              eq_refl eq_refl eq_refl eq_refl eq_refl)
    as [[Hstep _] Hrun].
  split; [exact Hstep | exact Hrun].
Defined.

(** C10. Toggle removal and re-add: on a selection that satisfies the
    invariant, toggling an entity whose id is present removes it, and the
    size goes down by one; toggling it once more appends it at the end.
    No other step than such a toggle, or the clear event, makes the
    selection smaller (a toggle at capacity replaces and keeps the
    size). *)
Theorem toggle_removal_and_readd (sel : list Superhero) (hero : Superhero) :
  valid_selection sel ->
  Selection.isHeroSelected sel (id hero) = true ->
  let sel' := Selection.handleHeroSelection hero sel in
  S (length sel') = length sel
  /\ Selection.isHeroSelected sel' (id hero) = false
  /\ Selection.handleHeroSelection hero sel' = sel' ++ [hero]
  /\ (forall ev : Selection.event,
        (length (Selection.step sel ev) < length sel)%nat ->
        ev = Selection.Clear \/
        exists h, ev = Selection.Toggle h /\
                  Selection.isHeroSelected sel (id h) = true).
Proof.
  intros [Hl Hd] Hp sel'. apply ids_apart_distinct in Hd.
  assert (Hsel' : sel' = List.filter
                           (fun h => negb (Selection.same_id h hero)) sel)
    by (apply toggle_present; exact Hp).
  assert (Hlen : S (length sel') = length sel)
    by (rewrite Hsel'; apply filter_drops_one; assumption).
  assert (Hgone : Selection.isHeroSelected sel' (id hero) = false)
    by (rewrite Hsel'; apply filter_removes).
  repeat split; try assumption.
  - apply toggle_absent_room; [exact Hgone | lia].
  - intros [h|] Hshrink; [right | left; reflexivity].
    exists h. split; [reflexivity|]. simpl in Hshrink.
    destruct (Selection.isHeroSelected sel (id h)) eqn:E; [reflexivity|].
    exfalso. destruct (Nat.lt_ge_cases (length sel) 2) as [Hlt|Hge].
    + rewrite (toggle_absent_room h sel E Hlt), length_app in Hshrink.
      simpl in Hshrink. lia.
    + destruct (toggle_absent_full h sel E Hge) as (second & _ & Heq).
      rewrite Heq in Hshrink. simpl in Hshrink. lia.
Qed.

Lemma toggle_removal_and_readd_witness :
  valid_selection [TestData.a_bomb; TestData.ant_man]
  /\ Selection.isHeroSelected [TestData.a_bomb; TestData.ant_man]
       (id TestData.a_bomb) = true
  /\ Selection.handleHeroSelection TestData.a_bomb
       [TestData.a_bomb; TestData.ant_man] = [TestData.ant_man]
  /\ Selection.handleHeroSelection TestData.a_bomb [TestData.ant_man]
     = [TestData.ant_man; TestData.a_bomb].
Proof.
  assert (Hv : valid_selection [TestData.a_bomb; TestData.ant_man]).
  { split; [simpl; lia|]. apply ids_apart_distinct. simpl.
    repeat constructor. }
  split; [exact Hv|]. split; [reflexivity|]. split; [reflexivity|].
  destruct (toggle_removal_and_readd
              [TestData.a_bomb; TestData.ant_man] TestData.a_bomb
              Hv eq_refl) as (_ & _ & Hreadd & _).
  exact Hreadd.
Defined.

(** * The properties of the comparison *)

(** ** The tests of [server.test.ts] and of the front end, replayed *)

Example test_compare_two_valid :
  exists r,
    Backend.compare_handler (H := reference_host)
      (Some "1"%string) (Some "2"%string) (Some TestData.table)
    = Backend.Json 200 (Backend.ResultBody r)
    /\ Backend.id1 r = number_of_Z 1 /\ Backend.id2 r = number_of_Z 2
    /\ map Backend.name (Backend.categories r) = categoriesOrder
    /\ map Backend.winner (Backend.categories r)
       = [Backend.W2; Backend.W1; Backend.W2; Backend.W1; Backend.W2;
          Backend.W1]
    /\ Backend.categories r !! 1%nat
       = Some {| Backend.name := strength; Backend.winner := Backend.W1;
                 Backend.id1_value := number_of_Z 100;
                 Backend.id2_value := number_of_Z 18 |}
    /\ Backend.overall_winner r = Backend.Tie.
Proof. eexists. repeat split; vm_compute; reflexivity. Qed.

Example test_id1_missing :
  Backend.compare_handler (H := reference_host)
    None (Some "2"%string) (Some TestData.table) = required_error.
Proof. reflexivity. Qed.

Example test_id2_missing :
  Backend.compare_handler (H := reference_host)
    (Some "1"%string) None (Some TestData.table) = required_error.
Proof. reflexivity. Qed.

Example test_ids_non_numeric :
  Backend.compare_handler (H := reference_host)
    (Some "abc"%string) (Some "2"%string) (Some TestData.table)
  = not_numbers_error.
Proof. reflexivity. Qed.

Example test_one_hero_not_found :
  Backend.compare_handler (H := reference_host)
    (Some "1"%string) (Some "9999"%string) (Some TestData.table)
  = not_found_error.
Proof. vm_compute. reflexivity. Qed.

Example test_tie_three_all :
  Frontend.calculateWinner (H := reference_host)
    TestData.a_bomb TestData.ant_man
  = Some {| Frontend.winner := None; Frontend.score := "3-3" |}.
Proof. vm_compute. reflexivity. Qed.

Example test_invalid_hero_data :
  Frontend.calculateWinner (H := reference_host)
    TestData.hero_A TestData.hero_B
  = Some {| Frontend.winner := Some TestData.hero_B;
            Frontend.score := "6-0" |}.
Proof. vm_compute. reflexivity. Qed.

(** ** Safe numeric read *)

(** X16. The front end reads an absent, [null] or non-numeric stat as
    [+0], raises nothing and skips nothing: the loop visits the six stats
    and its result is there for every pair of entities. *)
Lemma frontend_safe_read `{HostNumerics} (hero other : Superhero)
  (stat : CategoryName) :
  let raw := OptGet (powerstats hero) stat in
  (raw = PUndefined \/ raw = PNull \/ isNaN (parseInt raw) = true ->
   Frontend.getSafeStat hero stat = Some pos_zero)
  /\ (exists v, Frontend.getSafeStat hero stat = Some v /\ isNaN v = false)
  /\ (exists r, Frontend.calculateWinner hero other = Some r)
  /\ Frontend.stats = categoriesOrder.
Proof.
  intros raw. split; [apply getSafeStat_default|]. split.
  - exists (safe hero stat). apply getSafeStat_total.
  - split; [|reflexivity].
    rewrite calculateWinner_counts. eexists. reflexivity.
Qed.

(** C1. Safe numeric read, on the failing input.  [Hero A] of the
    test "handles comparison view with invalid hero data" has no [power]
    ([power: undefined] does not survive [JSON.stringify]) and the text
    ["invalid"] for [durability]; [Hero B] has [power: 90].  Whatever the
    host, the back end reports [NaN] for the [power] of [Hero A] and a
    tie, where a read of [0] gives the category to side 2, as the front
    end does on the same data.  On the reference host the whole answer of
    the route shows two ties, [durability] and [power], and the front end
    reads [0] in both. *)
Theorem backend_absent_stat_is_not_zero `{HostNumerics} :
  OptGet (powerstats TestData.hero_A) power = PUndefined
  /\ Backend.category TestData.hero_A TestData.hero_B power
     = {| Backend.name := power; Backend.winner := Backend.Tie;
          Backend.id1_value := NaN;
          Backend.id2_value := number_of_Z 90 |}
  /\ js_gt (number_of_Z 90) pos_zero = true
  /\ Frontend.getSafeStat TestData.hero_A power = Some pos_zero
  /\ (exists r,
        Backend.compare_handler (H := reference_host)
          (Some "1"%string) (Some "2"%string)
          (Some [TestData.hero_A; TestData.hero_B])
        = Backend.Json 200 (Backend.ResultBody r)
        /\ map Backend.winner (Backend.categories r)
           = [Backend.W2; Backend.W2; Backend.W2; Backend.Tie; Backend.Tie;
              Backend.W2]
        /\ map Backend.id1_value (Backend.categories r)
           = [pos_zero; pos_zero; number_of_Z (-5); NaN; NaN;
              number_of_Z 50])
  /\ map (Frontend.getSafeStat (H := reference_host) TestData.hero_A)
         Frontend.stats
     = map Some [pos_zero; pos_zero; number_of_Z (-5); pos_zero; pos_zero;
                 number_of_Z 50].
Proof.
  split; [reflexivity|]. split; [reflexivity|]. split; [reflexivity|].
  split; [apply getSafeStat_default; left; reflexivity|].
  split; [|vm_compute; reflexivity].
  eexists. repeat split; vm_compute; reflexivity.
Qed.

(** C3. In the back end, a category in which the raw powerstat of either
    entity is absent, or does not coerce ([Number] yields [NaN]), is a
    tie whatever the other side holds, and the value reported for that
    side is the result of the coercion, [NaN], not [0]. *)
Theorem backend_NaN_category_is_tie `{HostNumerics}
  (hero1 hero2 : Superhero) (id1Num id2Num : number) (cat : CategoryName) :
  let raw1 := OptGet (powerstats hero1) cat in
  let raw2 := OptGet (powerstats hero2) cat in
  let absent_or_NaN raw := raw = PUndefined \/ isNaN (ToNumber raw) = true in
  absent_or_NaN raw1 \/ absent_or_NaN raw2 ->
  exists c,
    In c (Backend.categories (Backend.compare hero1 hero2 id1Num id2Num))
    /\ Backend.name c = cat
    /\ Backend.winner c = Backend.Tie
    /\ Backend.id1_value c = ToNumber raw1
    /\ Backend.id2_value c = ToNumber raw2
    /\ (absent_or_NaN raw1 ->
        Backend.id1_value c = NaN /\ Backend.id1_value c <> pos_zero)
    /\ (absent_or_NaN raw2 ->
        Backend.id2_value c = NaN /\ Backend.id2_value c <> pos_zero).
Proof.
  intros raw1 raw2 absent_or_NaN Hraw.
  assert (Hnan : forall raw, absent_or_NaN raw -> ToNumber raw = NaN).
  { intros raw [->|E]; [reflexivity | apply isNaN_true; exact E]. }
  exists (Backend.category hero1 hero2 cat). split.
  - unfold Backend.compare. cbn [Backend.categories].
    apply List.in_map. destruct cat; simpl; tauto.
  - split; [reflexivity|]. split.
    + apply category_NaN. fold raw1 raw2.
      destruct Hraw as [E|E]; rewrite (Hnan _ E); [left | right]; reflexivity.
    + split; [reflexivity|]. split; [reflexivity|].
      split; intros E; cbn [Backend.category Backend.id1_value
                            Backend.id2_value]; fold raw1 raw2;
        rewrite (Hnan _ E); (split; [reflexivity | discriminate]).
Qed.

Lemma backend_NaN_category_is_tie_witness :
  OptGet (powerstats TestData.hero_A) power = PUndefined
  /\ exists c,
       In c (Backend.categories
               (Backend.compare (H := reference_host)
                  TestData.hero_A TestData.hero_B
                  (number_of_Z 1) (number_of_Z 2)))
       /\ Backend.name c = power
       /\ Backend.winner c = Backend.Tie
       /\ Backend.id1_value c = NaN.
Proof.
  split; [reflexivity|].
  destruct (backend_NaN_category_is_tie (H := reference_host)
              TestData.hero_A TestData.hero_B
              (number_of_Z 1) (number_of_Z 2) power
              (or_introl (or_introl eq_refl)))
    as (c & Hin & Hname & Hwin & Hv1 & _).
  exists c. repeat split; assumption.
Defined.

(** ** Requests *)

(** C2. A request whose [id1] or [id2] is missing or not numeric is
    answered with an "invalid request" answer, a request whose
    identifiers are fine but do not both resolve with the "not found"
    answer; the two answers differ (in the text of [error]; both carry
    status 400 and the tag [invalid_request]), and neither depends on
    the comparison engine, which is not run. *)
Theorem invalid_request_distinct_from_not_found `{HostNumerics}
  (engine : Superhero -> Superhero -> number -> number ->
            Backend.ComparisonResult)
  (q1 q2 : option string) (store : option (list Superhero))
  (p1 p2 : option string) (superheroes : list Superhero) :
  bad_id q1 || bad_id q2 = true ->
  bad_id p1 || bad_id p2 = false ->
  resolve p1 superheroes = None \/ resolve p2 superheroes = None ->
  let invalid := Backend.compare_handler q1 q2 store in
  let not_found := Backend.compare_handler p1 p2 (Some superheroes) in
  (invalid = required_error \/ invalid = not_numbers_error)
  /\ not_found = not_found_error
  /\ invalid <> not_found
  /\ Backend.compare_route engine q1 q2 store = invalid
  /\ Backend.compare_route engine p1 p2 (Some superheroes) = not_found.
Proof.
  intros Hbad Hgood Hres invalid not_found.
  assert (Hnf : forall e,
             Backend.compare_route e p1 p2 (Some superheroes)
             = not_found_error).
  { intros e. rewrite (route_good_ids e p1 p2 _ Hgood).
    destruct Hres as [-> | ->]; [reflexivity|].
    destruct (resolve p1 superheroes); reflexivity. }
  assert (Hinv : forall e,
             Backend.compare_route e q1 q2 store = required_error \/
             Backend.compare_route e q1 q2 store = not_numbers_error).
  { intros e. rewrite (route_bad_ids e q1 q2 store Hbad).
    destruct (negb _ || negb _); [left | right]; reflexivity. }
  subst invalid not_found. unfold Backend.compare_handler.
  split; [apply Hinv|]. split; [apply Hnf|]. split.
  - rewrite Hnf. destruct (Hinv Backend.compare) as [-> | ->]; discriminate.
  - split.
    + rewrite (route_bad_ids engine q1 q2 store Hbad),
              (route_bad_ids Backend.compare q1 q2 store Hbad). reflexivity.
    + rewrite !Hnf. reflexivity.
Qed.

Lemma invalid_request_distinct_from_not_found_witness :
  bad_id (H := reference_host) None
    || bad_id (H := reference_host) (Some "2"%string) = true
  /\ bad_id (H := reference_host) (Some "1"%string)
     || bad_id (H := reference_host) (Some "9999"%string) = false
  /\ resolve (H := reference_host) (Some "9999"%string) TestData.table = None
  /\ Backend.compare_handler (H := reference_host)
       None (Some "2"%string) (Some TestData.table)
     <> Backend.compare_handler (H := reference_host)
          (Some "1"%string) (Some "9999"%string) (Some TestData.table).
Proof.
  split; [reflexivity|]. split; [reflexivity|]. split; [reflexivity|].
  destruct (invalid_request_distinct_from_not_found (H := reference_host)
              (Backend.compare (H := reference_host))
              None (Some "2"%string) (Some TestData.table)
              (Some "1"%string) (Some "9999"%string) TestData.table
              eq_refl eq_refl (or_intror eq_refl))
    as (_ & _ & Hneq & _).
  exact Hneq.
Defined.

(** C9. Self-comparison: a request with the same identifier twice, when
    that identifier resolves, is answered with status 200 and a result
    in which every category and the overall verdict are ties. *)
Theorem self_comparison_all_ties `{HostNumerics}
  (s : string) (superheroes : list Superhero) (hero : Superhero) :
  s <> ""%string ->
  resolve (Some s) superheroes = Some hero ->
  exists r,
    Backend.compare_handler (Some s) (Some s) (Some superheroes)
    = Backend.Json 200 (Backend.ResultBody r)
    /\ r = Backend.compare hero hero (StringToNumber s) (StringToNumber s)
    /\ Backend.id1 r = Backend.id2 r
    /\ length (Backend.categories r) = 6%nat
    /\ Forall (fun c => Backend.winner c = Backend.Tie) (Backend.categories r)
    /\ Backend.overall_winner r = Backend.Tie.
Proof.
  intros Hs Hres.
  assert (Hgood : bad_id (Some s) || bad_id (Some s) = false).
  { unfold bad_id. rewrite (resolve_numeric _ _ _ Hres). simpl.
    destruct (String.eqb_spec s ""); [contradiction | reflexivity]. }
  exists (Backend.compare hero hero (StringToNumber s) (StringToNumber s)).
  split.
  - unfold Backend.compare_handler.
    rewrite (route_good_ids _ _ _ _ Hgood), Hres. reflexivity.
  - split; [reflexivity|]. split; [reflexivity|]. split; [reflexivity|].
    apply compare_self.
Qed.

Lemma self_comparison_all_ties_witness :
  "1"%string <> ""%string
  /\ resolve (H := reference_host) (Some "1"%string) TestData.table
     = Some TestData.a_bomb
  /\ exists r,
       Backend.compare_handler (H := reference_host)
         (Some "1"%string) (Some "1"%string) (Some TestData.table)
       = Backend.Json 200 (Backend.ResultBody r)
       /\ Backend.overall_winner r = Backend.Tie.
Proof.
  assert (Hne : "1"%string <> ""%string) by discriminate.
  split; [exact Hne|]. split; [reflexivity|].
  destruct (self_comparison_all_ties (H := reference_host)
              "1"%string TestData.table TestData.a_bomb Hne eq_refl)
    as (r & Hr & _ & _ & _ & _ & Htie).
  exists r. split; [exact Hr | exact Htie].
Defined.

(** ** The shape of a result *)

(** C7. Whatever the two entities hold, the categories of a comparison
    are six, named [intelligence], [strength], [speed], [durability],
    [power], [combat] in this order; so it is for every result the route
    sends, and the front end walks the same six names in the same
    order. *)
Theorem categories_fixed_order `{HostNumerics}
  (A B : Superhero) (id1Num id2Num : number)
  (q1 q2 : option string) (store : option (list Superhero)) :
  map Backend.name (Backend.categories (Backend.compare A B id1Num id2Num))
  = [intelligence; strength; speed; durability; power; combat]
  /\ length (Backend.categories (Backend.compare A B id1Num id2Num)) = 6%nat
  /\ match Backend.compare_handler q1 q2 store with
     | Backend.Json _ (Backend.ResultBody r) =>
         map Backend.name (Backend.categories r)
         = [intelligence; strength; speed; durability; power; combat]
     | _ => True
     end
  /\ Frontend.stats
     = [intelligence; strength; speed; durability; power; combat].
Proof.
  split; [reflexivity|]. split; [reflexivity|]. split; [|reflexivity].
  unfold Backend.compare_handler.
  destruct (bad_id q1 || bad_id q2) eqn:E.
  - rewrite (route_bad_ids _ _ _ _ E). destruct (negb _ || negb _); exact I.
  - rewrite (route_good_ids _ _ _ _ E).
    destruct store as [superheroes|]; [|exact I].
    destruct (resolve q1 superheroes), (resolve q2 superheroes);
      try exact I. reflexivity.
Qed.

(** C6. Mirror symmetry: comparing [B] with [A] gives the mirror image of
    comparing [A] with [B]: the two ids and the two values of every
    category change places, every category winner and the overall winner
    change sides, ties stay ties.  The same holds for the answers of the
    route when the two identifiers change places.  In the front end the
    two counters change places, and the same hero is named winner with
    the same score. *)
Theorem mirror_symmetry `{HostNumerics}
  (A B : Superhero) (id1Num id2Num : number)
  (q1 q2 : option string) (store : option (list Superhero)) :
  Backend.compare B A id2Num id1Num
  = mirror (Backend.compare A B id1Num id2Num)
  /\ Backend.compare_handler q2 q1 store
     = mirror_response (Backend.compare_handler q1 q2 store)
  /\ Frontend.forEach B A Frontend.stats (0, 0)%nat
     = prod_swap <$> Frontend.forEach A B Frontend.stats (0, 0)%nat
  /\ Frontend.calculateWinner B A = Frontend.calculateWinner A B.
Proof.
  split; [apply compare_mirror|]. split; [apply handler_mirror|].
  split; [|apply calculateWinner_swap].
  rewrite !forEach_counts. reflexivity.
Qed.

(** ** The overall winner *)

(** Every category goes to one side or is a tie. *)
Lemma wins_total (cs : list Backend.CategoryResult) :
  (wins Backend.W1 cs + wins Backend.W2 cs + wins Backend.Tie cs)%nat
  = length cs.
Proof.
  unfold wins. induction cs as [|c cs IH]; simpl; [reflexivity|].
  destruct (Backend.winner c); simpl; lia.
Qed.

(** C8. The overall winner is one of [1], [2], ["tie"]; it is the side
    that has won strictly more categories, ties counting for neither
    side, and it is a tie exactly when the two sides have won equally
    many categories, none included.  The front end names its winner by
    the same rule on its two counters. *)
Theorem overall_winner_majority `{HostNumerics}
  (A B : Superhero) (id1Num id2Num : number) :
  let r := Backend.compare A B id1Num id2Num in
  let w1 := wins Backend.W1 (Backend.categories r) in
  let w2 := wins Backend.W2 (Backend.categories r) in
  let a := stat_wins A B Frontend.stats in
  let b := stat_wins B A Frontend.stats in
  (Backend.overall_winner r = Backend.W1
   \/ Backend.overall_winner r = Backend.W2
   \/ Backend.overall_winner r = Backend.Tie)
  /\ (w1 + w2 + wins Backend.Tie (Backend.categories r) = 6)%nat
  /\ (Backend.overall_winner r = Backend.W1 <-> (w2 < w1)%nat)
  /\ (Backend.overall_winner r = Backend.W2 <-> (w1 < w2)%nat)
  /\ (Backend.overall_winner r = Backend.Tie <-> w1 = w2)
  /\ Frontend.forEach A B Frontend.stats (0, 0)%nat = Some (a, b)
  /\ exists res,
       Frontend.calculateWinner A B = Some res
       /\ ((b < a)%nat -> Frontend.winner res = Some A)
       /\ ((a < b)%nat -> Frontend.winner res = Some B)
       /\ (Frontend.winner res = None <-> a = b).
Proof.
  intros r w1 w2 a b.
  split; [destruct (Backend.overall_winner r); tauto|]. split.
  { subst w1 w2. rewrite wins_total. reflexivity. }
  pose proof (overall_winner_wins A B id1Num id2Num) as Ho.
  cbv zeta in Ho. fold r w1 w2 in Ho. rewrite Ho.
  split; [|split; [|split; [|split]]].
  - destruct (Nat.ltb_spec w2 w1), (Nat.ltb_spec w1 w2);
      split; intros; try discriminate; try reflexivity; lia.
  - destruct (Nat.ltb_spec w2 w1), (Nat.ltb_spec w1 w2);
      split; intros; try discriminate; try reflexivity; lia.
  - destruct (Nat.ltb_spec w2 w1), (Nat.ltb_spec w1 w2);
      split; intros; try discriminate; try reflexivity; lia.
  - rewrite forEach_counts. reflexivity.
  - pose proof (calculateWinner_counts A B) as Hc. cbv zeta in Hc.
    fold a b in Hc. rewrite Hc. eexists. split; [reflexivity|].
    destruct (Nat.ltb_spec b a), (Nat.ltb_spec a b); simpl;
      repeat split; intros; try discriminate; try reflexivity; lia.
Qed.

(** * Further properties of the selection *)

Lemma isHeroSelected_app (l1 l2 : list Superhero) (heroId : prim) :
  Selection.isHeroSelected (l1 ++ l2) heroId
  = Selection.isHeroSelected l1 heroId || Selection.isHeroSelected l2 heroId.
Proof. unfold Selection.isHeroSelected. apply List.existsb_app. Qed.

(** X1. The checkbox follows the toggle: for an entity whose id is [===]
    to itself (any id but [NaN]), one toggle turns "selected" into "not
    selected" and back, whatever the selection holds. *)
Theorem toggle_flips_checkbox (sel : list Superhero) (hero : Superhero) :
  strict_equals (id hero) (id hero) = true ->
  Selection.isHeroSelected (Selection.handleHeroSelection hero sel) (id hero)
  = negb (Selection.isHeroSelected sel (id hero)).
Proof.
  intros Hrefl.
  destruct (Selection.isHeroSelected sel (id hero)) eqn:E; simpl.
  - rewrite (toggle_present hero sel E). apply filter_removes.
  - destruct (Nat.lt_ge_cases (length sel) 2) as [Hlt|Hge].
    + rewrite (toggle_absent_room hero sel E Hlt), isHeroSelected_app, E.
      simpl. rewrite Hrefl. reflexivity.
    + destruct (toggle_absent_full hero sel E Hge) as (second & _ & ->).
      simpl. rewrite Hrefl. apply orb_true_r.
Qed.

Lemma toggle_flips_checkbox_witness :
  strict_equals (id TestData.bane) (id TestData.bane) = true
  /\ Selection.isHeroSelected
       (Selection.handleHeroSelection TestData.bane
          [TestData.a_bomb; TestData.ant_man]) (id TestData.bane)
     = true.
Proof.
  split; [reflexivity|].
  exact (toggle_flips_checkbox [TestData.a_bomb; TestData.ant_man]
           TestData.bane eq_refl).
Defined.

(** X2. A toggle that removes, or that adds below capacity, leaves the
    checkbox of every other id as it was. *)
Theorem toggle_leaves_others (sel : list Superhero) (hero : Superhero)
  (other : prim) :
  Selection.isHeroSelected sel (id hero) = true \/ (length sel < 2)%nat ->
  strict_equals (id hero) other = false ->
  Selection.isHeroSelected (Selection.handleHeroSelection hero sel) other
  = Selection.isHeroSelected sel other.
Proof.
  intros Hcase Hother.
  destruct (Selection.isHeroSelected sel (id hero)) eqn:E.
  - rewrite (toggle_present hero sel E). clear Hcase E.
    unfold Selection.isHeroSelected.
    induction sel as [|a sel IH]; simpl; [reflexivity|].
    destruct (Selection.same_id a hero) eqn:Ea; simpl; rewrite IH;
      [|reflexivity].
    destruct (strict_equals (id a) other) eqn:Eo; [|reflexivity].
    exfalso. unfold Selection.same_id in Ea.
    rewrite strict_equals_sym in Ea.
    rewrite (strict_equals_trans _ _ _ Ea Eo) in Hother. discriminate.
  - destruct Hcase as [Hp|Hlt]; [discriminate|].
    rewrite (toggle_absent_room hero sel E Hlt), isHeroSelected_app.
    simpl. rewrite Hother. rewrite !orb_false_r. reflexivity.
Qed.

Lemma toggle_leaves_others_witness :
  (length [TestData.a_bomb] < 2)%nat
  /\ strict_equals (id TestData.ant_man) (id TestData.a_bomb) = false
  /\ Selection.isHeroSelected
       (Selection.handleHeroSelection TestData.ant_man [TestData.a_bomb])
       (id TestData.a_bomb) = true.
Proof.
  assert (Hl : (length [TestData.a_bomb] < 2)%nat) by (simpl; lia).
  split; [exact Hl|]. split; [reflexivity|].
  exact (toggle_leaves_others [TestData.a_bomb] TestData.ant_man
           (id TestData.a_bomb) (or_intror Hl) eq_refl).
Defined.

(** X3. Selecting and deselecting: two toggles of an entity that was not
    selected give the selection back when there was room; at capacity
    they leave only the member that was at index 1, the oldest member
    is not restored. *)
Theorem toggle_twice (sel : list Superhero) (hero : Superhero) :
  Selection.isHeroSelected sel (id hero) = false ->
  strict_equals (id hero) (id hero) = true ->
  Selection.handleHeroSelection hero (Selection.handleHeroSelection hero sel)
  = if Nat.ltb (length sel) 2 then sel else take 1 (drop 1 sel).
Proof.
  intros Habsent Hrefl.
  assert (Hkeep : forall l,
             Forall (fun h => Selection.same_id h hero = false) l ->
             List.filter (fun h => negb (Selection.same_id h hero)) l = l).
  { intros l Hl. induction Hl as [|a l Ha _ IH]; simpl; [reflexivity|].
    rewrite Ha. simpl. rewrite IH. reflexivity. }
  pose proof (absent_Forall sel hero (proj1 (find_absent sel hero) Habsent))
    as Hall.
  pose proof (toggle_flips_checkbox sel hero Hrefl) as Hnow.
  rewrite Habsent in Hnow. simpl in Hnow.
  rewrite (toggle_present hero _ Hnow).
  destruct (Nat.ltb_spec (length sel) 2) as [Hlt|Hge].
  - rewrite (toggle_absent_room hero sel Habsent Hlt).
    rewrite List.filter_app, (Hkeep sel Hall). simpl.
    unfold Selection.same_id. rewrite Hrefl. simpl. apply app_nil_r.
  - destruct (toggle_absent_full hero sel Habsent Hge) as (second & Hs & ->).
    destruct sel as [|a [|b rest]]; simpl in Hge; try lia.
    simpl in Hs. injection Hs as <-.
    inversion Hall as [|? ? _ Hall']; subst.
    inversion Hall' as [|? ? Hb _]; subst.
    simpl. rewrite Hb. unfold Selection.same_id. rewrite Hrefl. reflexivity.
Qed.

Lemma toggle_twice_witness :
  Selection.isHeroSelected [TestData.a_bomb; TestData.ant_man]
    (id TestData.bane) = false
  /\ strict_equals (id TestData.bane) (id TestData.bane) = true
  /\ Selection.handleHeroSelection TestData.bane
       (Selection.handleHeroSelection TestData.bane
          [TestData.a_bomb; TestData.ant_man])
     = [TestData.ant_man].
Proof.
  split; [reflexivity|]. split; [reflexivity|].
  exact (toggle_twice [TestData.a_bomb; TestData.ant_man] TestData.bane
           eq_refl eq_refl).
Defined.

Lemma fold_step_members (evs : list Selection.event) (sel : list Superhero)
  (h : Superhero) :
  In h (fold_left Selection.step evs sel) ->
  In h sel \/ In (Selection.Toggle h) evs.
Proof.
  revert sel. induction evs as [|ev evs IH]; intros sel Hin; simpl in *.
  - left. exact Hin.
  - destruct (IH _ Hin) as [Hstep|Hlater]; [|right; right; exact Hlater].
    destruct ev as [hero|]; simpl in Hstep; [|contradiction].
    unfold Selection.handleHeroSelection in Hstep.
    destruct (List.find _ sel).
    + apply List.filter_In in Hstep as [Hs _]. left. exact Hs.
    + destruct sel as [|a [|b rest]]; simpl in Hstep.
      * destruct Hstep as [<-|[]]. right. left. reflexivity.
      * destruct Hstep as [<-|[<-|[]]];
          [left; left; reflexivity | right; left; reflexivity].
      * destruct Hstep as [<-|[<-|[]]];
          [left; right; left; reflexivity | right; left; reflexivity].
Qed.

(** X4. The reducer invents nothing: every member of the selection is an
    entity that some earlier event toggled. *)
Theorem selection_members_were_toggled (evs : list Selection.event)
  (h : Superhero) :
  In h (Selection.run evs) -> In (Selection.Toggle h) evs.
Proof.
  intros Hin. destruct (fold_step_members evs [] h Hin) as [[]|Hev].
  exact Hev.
Qed.

Lemma selection_members_were_toggled_witness :
  In TestData.ant_man
     (Selection.run [Selection.Toggle TestData.a_bomb;
                     Selection.Toggle TestData.ant_man])
  /\ In (Selection.Toggle TestData.ant_man)
        [Selection.Toggle TestData.a_bomb; Selection.Toggle TestData.ant_man].
Proof.
  assert (Hin : In TestData.ant_man
                   (Selection.run [Selection.Toggle TestData.a_bomb;
                                   Selection.Toggle TestData.ant_man]))
    by (right; left; reflexivity).
  split; [exact Hin|].
  exact (selection_members_were_toggled _ _ Hin).
Defined.

(** * The routes that look one hero up *)

(** [find] returns the first element that passes the test. *)
Lemma find_first {A : Type} (f : A -> bool) (l : list A) (x : A) :
  List.find f l = Some x <->
  exists pre post,
    l = pre ++ x :: post /\ f x = true /\ Forall (fun y => f y = false) pre.
Proof.
  split.
  - induction l as [|a l IH]; simpl; [discriminate|].
    destruct (f a) eqn:E.
    + intros [= <-]. exists [], l. repeat split; [exact E | constructor].
    + intros Hf. destruct (IH Hf) as (pre & post & -> & Hx & Hpre).
      exists (a :: pre), post. repeat split; [exact Hx|].
      constructor; assumption.
  - intros (pre & post & -> & Hx & Hpre).
    induction Hpre as [|a pre Ha _ IH]; simpl.
    + rewrite Hx. reflexivity.
    + rewrite Ha. exact IH.
Qed.

Lemma find_nothing {A : Type} (f : A -> bool) (l : list A) :
  List.find f l = None <-> Forall (fun y => f y = false) l.
Proof.
  induction l as [|a l IH]; simpl.
  - split; [constructor | reflexivity].
  - destruct (f a) eqn:E.
    + split; [discriminate|]. intros Hall.
      inversion Hall as [|? ? Ha _]; subst. congruence.
    + rewrite IH. split; [intros Hl; constructor; assumption|].
      intros Hall. inversion Hall; assumption.
Qed.

(** X5. [GET /api/superheroes/:id] answers with the first hero of the
    store whose id, written as text, is the path parameter; it answers
    404 exactly when no hero has that id and 500 exactly when the store
    cannot be read.  [GET /api/superheroes/:id/powerstats] answers with
    the [powerstats] of that same hero, and with the same error
    otherwise. *)
Theorem hero_routes_lookup `{HostNumerics} (id' : string)
  (store : option (list Superhero)) :
  (forall hero,
     Server.hero_route id' store = Server.JsonHero hero <->
     exists pre post,
       store = Some (pre ++ hero :: post)
       /\ ToString (id hero) = id'
       /\ Forall (fun other => ToString (id other) <> id') pre)
  /\ (Server.hero_route id' store = Server.Status 404 "Superhero not found"
      <-> exists superheroes,
            store = Some superheroes
            /\ Forall (fun other => ToString (id other) <> id') superheroes)
  /\ (Server.hero_route id' store
        = Server.Status 500 "Internal Server Error" <-> store = None)
  /\ Server.powerstats_route id' store
     = match Server.hero_route id' store with
       | Server.JsonHero hero => Server.JsonValue (powerstats hero)
       | other => other
       end.
Proof.
  assert (Hneq : forall l,
             Forall (fun y => Server.id_matches id' y = false) l <->
             Forall (fun other => ToString (id other) <> id') l).
  { intros l. apply Forall_iff. intros y. unfold Server.id_matches.
    destruct (String.eqb_spec (ToString (id y)) id'); split;
      congruence. }
  unfold Server.hero_route, Server.powerstats_route.
  destruct store as [l|].
  - destruct (List.find (Server.id_matches id') l) as [h|] eqn:E.
    + apply find_first in E as Hsplit.
      repeat split; try discriminate.
      * intros [= <-]. destruct Hsplit as (pre & post & -> & Hm & Hpre).
        exists pre, post. repeat split; [|apply Hneq; exact Hpre].
        unfold Server.id_matches in Hm. apply String.eqb_eq. exact Hm.
      * intros (pre & post & [= ->] & Hm & Hpre). f_equal.
        assert (Hfind : List.find (Server.id_matches id')
                          (pre ++ hero :: post) = Some hero).
        { apply find_first. exists pre, post. repeat split.
          - unfold Server.id_matches. apply String.eqb_eq. exact Hm.
          - apply Hneq. exact Hpre. }
        congruence.
      * intros (l' & [= <-] & Hall). apply Hneq, find_nothing in Hall.
        congruence.
    + apply find_nothing in E as Hall. repeat split; try discriminate.
      * intros (pre & post & [= ->] & Hm & Hpre).
        rewrite List.Forall_forall in Hall.
        assert (Hin : In hero (pre ++ hero :: post))
          by (apply List.in_or_app; right; left; reflexivity).
        pose proof (Hall hero Hin) as Hf. unfold Server.id_matches in Hf.
        apply String.eqb_neq in Hf. contradiction.
      * intros _. exists l. split; [reflexivity | apply Hneq; exact Hall].
  - repeat split; try discriminate.
    + intros (pre & post & Hs & _). discriminate.
    + intros (l & Hs & _). discriminate.
Qed.

(** X6. The answers of [GET /api/superheroes/compare]: every answer is
    one of five; status 200 is sent exactly when both identifiers are
    present and numeric, the store can be read and both identifiers
    resolve, and then the result is the comparison of the two heroes
    found, with [id1] and [id2] [===] to the numeric ids of those
    heroes; status 500 is sent exactly when the identifiers pass and
    the store cannot be read. *)
Theorem compare_route_answers `{HostNumerics} (q1 q2 : option string)
  (store : option (list Superhero)) :
  let answer := Backend.compare_handler q1 q2 store in
  (answer = required_error \/ answer = not_numbers_error
   \/ answer = not_found_error
   \/ answer = Backend.Send 500 "Internal Server Error"
   \/ exists r, answer = Backend.Json 200 (Backend.ResultBody r))
  /\ (forall r,
        answer = Backend.Json 200 (Backend.ResultBody r) <->
        bad_id q1 || bad_id q2 = false
        /\ exists superheroes hero1 hero2,
             store = Some superheroes
             /\ resolve q1 superheroes = Some hero1
             /\ resolve q2 superheroes = Some hero2
             /\ number_equals (ToNumber (id hero1)) (Backend.id1 r) = true
             /\ number_equals (ToNumber (id hero2)) (Backend.id2 r) = true
             /\ r = Backend.compare hero1 hero2
                      (ToNumber (Backend.query_param q1))
                      (ToNumber (Backend.query_param q2)))
  /\ (answer = Backend.Send 500 "Internal Server Error" <->
      bad_id q1 || bad_id q2 = false /\ store = None).
Proof.
  intros answer. subst answer. unfold Backend.compare_handler.
  destruct (bad_id q1 || bad_id q2) eqn:E.
  - rewrite (route_bad_ids _ q1 q2 store E).
    destruct (negb _ || negb _).
    + split; [left; reflexivity|]. split.
      * intros r. split; [discriminate | intros [Hf _]; discriminate].
      * split; [discriminate | intros [Hf _]; discriminate].
    + split; [right; left; reflexivity|]. split.
      * intros r. split; [discriminate | intros [Hf _]; discriminate].
      * split; [discriminate | intros [Hf _]; discriminate].
  - rewrite (route_good_ids _ q1 q2 store E).
    destruct store as [l|].
    + destruct (resolve q1 l) as [h1|] eqn:E1.
      * destruct (resolve q2 l) as [h2|] eqn:E2.
        -- split; [right; right; right; right; eexists; reflexivity|].
           split; [|split; [discriminate | intros [_ Hs]; discriminate]].
           intros r. split.
           ++ intros [= <-]. split; [reflexivity|].
              exists l, h1, h2. repeat split; try assumption.
              ** unfold resolve in E1. apply List.find_some in E1 as [_ E1].
                 exact E1.
              ** unfold resolve in E2. apply List.find_some in E2 as [_ E2].
                 exact E2.
           ++ intros (_ & l' & a & b & [= <-] & Ha & Hb & _ & _ & ->).
              congruence.
        -- split; [right; right; left; reflexivity|].
           split; [|split; [discriminate | intros [_ Hs]; discriminate]].
           intros r. split; [discriminate|].
           intros (_ & l' & a & b & [= <-] & _ & Hb & _). congruence.
      * split; [right; right; left; reflexivity|].
        split; [|split; [discriminate | intros [_ Hs]; discriminate]].
        intros r. split; [discriminate|].
        intros (_ & l' & a & b & [= <-] & Ha & _). congruence.
    + split; [right; right; right; left; reflexivity|]. split.
      * intros r. split; [discriminate|].
        intros (_ & l' & a & b & Hs & _). discriminate.
      * split; [intros _; split; reflexivity | reflexivity].
Qed.

(** * The comparison view of [App.js] *)

Section ViewFacts.
Context `{HostNumerics}.

Lemma mapM_total {A B : Type} (f : A -> option B) (g : A -> B) (l : list A) :
  (forall x, f x = Some (g x)) -> mapM f l = Some (map g l).
Proof.
  intros Hf. induction l as [|x l IH]; simpl; [reflexivity|].
  rewrite Hf, IH. reflexivity.
Qed.

Lemma render_row_total (hero1 hero2 : Superhero) (stat : CategoryName) :
  App.render_row hero1 hero2 stat = Some (row_of hero1 hero2 stat).
Proof.
  unfold App.render_row.
  rewrite (proj1 (getSafeStat_total hero1 stat)),
          (proj1 (getSafeStat_total hero2 stat)). reflexivity.
Qed.

Lemma marked_rows (hero1 hero2 : Superhero) (l : list CategoryName) :
  marked App.hero1_mark (map (row_of hero1 hero2) l) = stat_wins hero1 hero2 l
  /\ marked App.hero2_mark (map (row_of hero1 hero2) l)
     = stat_wins hero2 hero1 l.
Proof.
  unfold marked, stat_wins.
  induction l as [|stat l [IH1 IH2]]; simpl; [split; reflexivity|].
  destruct (js_gt (safe hero1 stat) (safe hero2 stat)) eqn:E12.
  - rewrite (js_gt_asym _ _ E12). simpl. rewrite IH1, IH2.
    split; reflexivity.
  - destruct (js_gt (safe hero2 stat) (safe hero1 stat)); simpl;
      rewrite IH1, IH2; split; reflexivity.
Qed.

Lemma stat_wins_bound (hero1 hero2 : Superhero) (l : list CategoryName) :
  (stat_wins hero1 hero2 l + stat_wins hero2 hero1 l <= length l)%nat.
Proof.
  unfold stat_wins. induction l as [|stat l IH]; simpl; [lia|].
  destruct (js_gt (safe hero1 stat) (safe hero2 stat)) eqn:E12.
  - rewrite (js_gt_asym _ _ E12). simpl. lia.
  - destruct (js_gt (safe hero2 stat) (safe hero1 stat)); simpl; lia.
Qed.

(** With two heroes selected the view is shown, and this is what it
    holds. *)
Lemma renderComparison_two (s : App.state) (hero1 hero2 : Superhero) :
  App.selectedHeroes s = [hero1; hero2] ->
  let a := stat_wins hero1 hero2 Frontend.stats in
  let b := stat_wins hero2 hero1 Frontend.stats in
  App.renderComparison s =
  App.Shown
    {| App.hero1 := hero1; App.hero2 := hero2;
       App.rows := map (row_of hero1 hero2) Frontend.stats;
       App.final :=
         if Nat.ltb b a then App.Wins (name hero1) (Frontend.score_text a b)
         else if Nat.ltb a b then
           App.Wins (name hero2) (Frontend.score_text b a)
         else App.ItsATie (Frontend.score_text a b) |}.
Proof.
  intros Hsel a b. unfold App.renderComparison. rewrite Hsel.
  rewrite (mapM_total _ _ _ (render_row_total hero1 hero2)).
  pose proof (calculateWinner_counts hero1 hero2) as Hc. cbv zeta in Hc.
  fold a b in Hc. rewrite Hc. f_equal. f_equal.
  destruct (Nat.ltb b a), (Nat.ltb a b); reflexivity.
Qed.

End ViewFacts.

(** X7. The comparison view of [App.js], for any two selected heroes: it
    is shown (neither [null] nor an exception), it has the six rows in
    the fixed order, no value in it is [NaN], and its closing block
    agrees with its rows: with [a] rows marked for the first hero and
    [b] for the second, the hero with more rows is announced with the
    score written winner first, and equal counts announce a tie. *)
Theorem comparison_view_consistent `{HostNumerics} (s : App.state)
  (hero1 hero2 : Superhero) :
  App.selectedHeroes s = [hero1; hero2] ->
  exists v,
    App.renderComparison s = App.Shown v
    /\ App.hero1 v = hero1 /\ App.hero2 v = hero2
    /\ map App.stat (App.rows v) = categoriesOrder
    /\ Forall (fun r => isNaN (App.stat1 r) = false
                        /\ isNaN (App.stat2 r) = false) (App.rows v)
    /\ let a := marked App.hero1_mark (App.rows v) in
       let b := marked App.hero2_mark (App.rows v) in
       (a + b <= 6)%nat
       /\ App.final v =
          if Nat.ltb b a then App.Wins (name hero1) (Frontend.score_text a b)
          else if Nat.ltb a b then
            App.Wins (name hero2) (Frontend.score_text b a)
          else App.ItsATie (Frontend.score_text a b).
Proof.
  intros Hsel. eexists. split; [apply renderComparison_two; exact Hsel|].
  cbn [App.hero1 App.hero2 App.rows App.final].
  split; [reflexivity|]. split; [reflexivity|]. split; [reflexivity|]. split.
  - apply List.Forall_forall. intros r Hr.
    apply List.in_map_iff in Hr as (stat & <- & _). simpl.
    split; apply getSafeStat_total.
  - destruct (marked_rows hero1 hero2 Frontend.stats) as [-> ->].
    split; [apply (stat_wins_bound hero1 hero2 Frontend.stats)|].
    reflexivity.
Qed.

Lemma comparison_view_consistent_witness :
  exists v,
    App.renderComparison (H := reference_host)
      {| App.superheroes := TestData.table;
         App.selectedHeroes := [TestData.hero_A; TestData.hero_B];
         App.currentView := App.comparison |} = App.Shown v
    /\ marked App.hero2_mark (App.rows v) = 6%nat
    /\ App.final v = App.Wins (PString "Hero B") "6-0".
Proof.
  destruct (comparison_view_consistent (H := reference_host)
              {| App.superheroes := TestData.table;
                 App.selectedHeroes := [TestData.hero_A; TestData.hero_B];
                 App.currentView := App.comparison |}
              TestData.hero_A TestData.hero_B eq_refl)
    as (v & Hv & _ & _ & _ & _ & _ & Hfinal).
  exists v. split; [exact Hv|].
  assert (Hv' := Hv). vm_compute in Hv'. injection Hv' as <-.
  split; vm_compute; reflexivity.
Defined.

(** * The component as a whole *)

Section AppFacts.
Context `{HostNumerics}.

Lemma app_step_invariant (s : App.state) (ev : App.event) :
  app_invariant s -> app_invariant (App.step s ev).
Proof.
  intros (Hl & Hd & Hv).
  assert (Hsame : app_invariant s) by (repeat split; assumption).
  unfold App.step.
  destruct ev as [data|index| |]; destruct (App.currentView s) eqn:V;
    try exact Hsame.
  - destruct (App.superheroes s !! index) as [hero|]; [|exact Hsame].
    destruct (toggle_preserves hero _ Hl Hd) as [Hl' Hd'].
    repeat split; simpl; try assumption. rewrite V. discriminate.
  - unfold App.handleCompare.
    destruct (Nat.eqb_spec (length (App.selectedHeroes s)) 2) as [E|E];
      [|exact Hsame].
    repeat split; simpl; try assumption. intros _. exact E.
  - destruct (App.renderComparison s); try exact Hsame.
    repeat split; simpl; [lia | discriminate].
Qed.

Lemma app_fold_invariant (evs : list App.event) (s : App.state) :
  app_invariant s -> app_invariant (fold_left App.step evs s).
Proof.
  revert s. induction evs as [|ev evs IH]; intros s Hs; simpl;
    [exact Hs | apply IH, app_step_invariant, Hs].
Qed.

(** Whoever is selected, or listed, was in a list that arrived. *)
Lemma app_fold_members (evs : list App.event) (s : App.state)
  (h : Superhero) :
  let s' := fold_left App.step evs s in
  In h (App.selectedHeroes s') \/ In h (App.superheroes s') ->
  In h (App.selectedHeroes s) \/ In h (App.superheroes s)
  \/ exists data, In (App.Loaded (Some data)) evs /\ In h data.
Proof.
  revert s. induction evs as [|ev evs IH]; intros s; simpl.
  - tauto.
  - intros Hin. destruct (IH _ Hin) as [Hs|[Hs|(data & Hd & Hh)]];
      [| |right; right; exists data; split; [right|]; assumption].
    + unfold App.step in Hs.
      destruct ev as [data|index| |]; destruct (App.currentView s);
        simpl in Hs; try (left; exact Hs).
      * destruct (App.superheroes s !! index) as [hero|] eqn:Ei;
          [|left; exact Hs].
        simpl in Hs.
        destruct (fold_step_members [Selection.Toggle hero]
                    (App.selectedHeroes s) h Hs) as [Hold|[[= ->]|[]]];
          [left; exact Hold|].
        right. left. apply list_elem_of_In.
        eapply list_elem_of_lookup_2. exact Ei.
      * destruct (Nat.eqb (length (App.selectedHeroes s)) 2);
          [|left; exact Hs].
        unfold App.handleCompare in Hs.
        destruct (Nat.eqb (length (App.selectedHeroes s)) 2);
          left; exact Hs.
      * destruct (App.renderComparison s); simpl in Hs;
          try (left; exact Hs). contradiction.
    + unfold App.step in Hs.
      destruct ev as [data|index| |]; destruct (App.currentView s);
        simpl in Hs; try (right; left; exact Hs).
      * destruct data as [data|]; simpl in Hs; [|contradiction].
        right. right. exists data. split; [left; reflexivity | exact Hs].
      * destruct data as [data|]; simpl in Hs; [|contradiction].
        right. right. exists data. split; [left; reflexivity | exact Hs].
      * destruct (App.superheroes s !! index); right; left; exact Hs.
      * destruct (Nat.eqb (length (App.selectedHeroes s)) 2);
          [|right; left; exact Hs].
        unfold App.handleCompare in Hs.
        destruct (Nat.eqb (length (App.selectedHeroes s)) 2);
          right; left; exact Hs.
      * destruct (App.renderComparison s); right; left; exact Hs.
Qed.

End AppFacts.

(** X8. The component of [App.js], from its first render and through any
    sequence of arrivals of the list and of clicks on the controls that
    are on the page: the selection keeps its invariant; whenever the
    comparison view is current exactly two heroes are selected and the
    view is shown, so that the page is never empty and the back button
    is there; and every selected hero comes from a list that arrived. *)
Theorem comparison_view_has_two_heroes `{HostNumerics}
  (evs : list App.event) :
  let s := App.run evs in
  valid_selection (App.selectedHeroes s)
  /\ (App.currentView s = App.comparison ->
      length (App.selectedHeroes s) = 2%nat
      /\ exists v, App.renderComparison s = App.Shown v)
  /\ (forall h, In h (App.selectedHeroes s) ->
      exists data, In (App.Loaded (Some data)) evs /\ In h data).
Proof.
  intros s.
  assert (Hinv : app_invariant s).
  { apply app_fold_invariant. repeat split; simpl; [lia | discriminate]. }
  destruct Hinv as (Hl & Hd & Hv). split; [|split].
  - split; [exact Hl | apply ids_apart_distinct; exact Hd].
  - intros Hc. split; [exact (Hv Hc)|].
    pose proof (Hv Hc) as H2.
    destruct (App.selectedHeroes s) as [|a [|b [|c rest]]] eqn:Hsel;
      try discriminate.
    eexists. apply (renderComparison_two s a b Hsel).
  - intros h Hin.
    destruct (app_fold_members evs App.initial h (or_introl Hin))
      as [[]|[[]|Hdata]].
    exact Hdata.
Qed.

(** * The two engines side by side *)

Section Agreement.
Context `{HostNumerics}.

Lemma category_agree (A B : Superhero) (cat : CategoryName) :
  reads_agree A -> reads_agree B ->
  Backend.category A B cat =
  {| Backend.name := cat;
     Backend.winner :=
       if js_gt (safe A cat) (safe B cat) then Backend.W1
       else if js_gt (safe B cat) (safe A cat) then Backend.W2
       else Backend.Tie;
     Backend.id1_value := safe A cat;
     Backend.id2_value := safe B cat |}.
Proof.
  intros HA HB. unfold Backend.category. rewrite <- (HA cat), <- (HB cat).
  reflexivity.
Qed.

Lemma category_counts (A B : Superhero) (l : list CategoryName) :
  reads_agree A -> reads_agree B ->
  length (List.filter Refactored.is_1 (map (Backend.category A B) l))
  = stat_wins A B l
  /\ length (List.filter Refactored.is_2 (map (Backend.category A B) l))
     = stat_wins B A l.
Proof.
  intros HA HB. unfold stat_wins.
  rewrite !List.filter_map_swap, !length_map. split; f_equal;
    apply List.filter_ext; intros cat;
    rewrite (category_agree A B cat HA HB);
    unfold Refactored.is_1, Refactored.is_2; cbn [Backend.winner];
    destruct (js_gt (safe A cat) (safe B cat)) eqn:E;
    rewrite ?(js_gt_asym _ _ E); try reflexivity;
    destruct (js_gt (safe B cat) (safe A cat)); reflexivity.
Qed.

Lemma row_mark_agree (A B : Superhero) (cat : CategoryName) :
  reads_agree A -> reads_agree B ->
  Refactored.row_mark (Backend.category A B cat)
  = App.winner (row_of A B cat).
Proof.
  intros HA HB. rewrite (category_agree A B cat HA HB).
  unfold Refactored.row_mark, row_of. simpl.
  destruct (js_gt (safe A cat) (safe B cat)); [reflexivity|].
  destruct (js_gt (safe B cat) (safe A cat)); reflexivity.
Qed.

End Agreement.

(** X9. Moving the comparison to the back end kept the verdicts on data
    that both sides read alike.  For two selected heroes whose six
    stats are read as the same numbers by [getSafeStat] and by
    [Number(...)], the result of the back end carries, row by row, the
    values and the marks that the comparison view of [App.js] shows,
    and the later view builds from that result the closing block of
    the earlier one: same winner, same score. *)
Theorem refactoring_keeps_verdicts `{HostNumerics} (s : App.state)
  (A B : Superhero) (id1Num id2Num : number) :
  App.selectedHeroes s = [A; B] ->
  reads_agree A -> reads_agree B ->
  let r := Backend.compare A B id1Num id2Num in
  exists v,
    App.renderComparison s = App.Shown v
    /\ map Backend.name (Backend.categories r) = map App.stat (App.rows v)
    /\ map Backend.id1_value (Backend.categories r)
       = map App.stat1 (App.rows v)
    /\ map Backend.id2_value (Backend.categories r)
       = map App.stat2 (App.rows v)
    /\ map Refactored.row_mark (Backend.categories r)
       = map App.winner (App.rows v)
    /\ Refactored.final_result A B (Backend.categories r)
         (Backend.overall_winner r) = App.final v.
Proof.
  intros Hsel HA HB r. eexists.
  split; [apply renderComparison_two; exact Hsel|].
  cbn [App.rows App.final]. subst r. unfold Backend.compare.
  cbn [Backend.categories Backend.overall_winner].
  rewrite !List.map_map.
  change Frontend.stats with categoriesOrder.
  split; [reflexivity|].
  split; [apply List.map_ext; intros cat;
          rewrite (category_agree A B cat HA HB); reflexivity|].
  split; [apply List.map_ext; intros cat;
          rewrite (category_agree A B cat HA HB); reflexivity|].
  split; [apply List.map_ext; intros cat; apply row_mark_agree; assumption|].
  unfold Refactored.final_result.
  change Backend.is_W1 with Refactored.is_1.
  change Backend.is_W2 with Refactored.is_2.
  destruct (category_counts A B categoriesOrder HA HB) as [-> ->].
  set (a := stat_wins A B categoriesOrder).
  set (b := stat_wins B A categoriesOrder).
  destruct (Nat.ltb b a); [reflexivity|].
  destruct (Nat.ltb a b); reflexivity.
Qed.

Lemma refactoring_keeps_verdicts_witness :
  reads_agree (H := reference_host) TestData.a_bomb
  /\ reads_agree (H := reference_host) TestData.ant_man
  /\ Refactored.final_result TestData.a_bomb TestData.ant_man
       (Backend.categories
          (Backend.compare (H := reference_host)
             TestData.a_bomb TestData.ant_man
             (number_of_Z 1) (number_of_Z 2)))
       (Backend.overall_winner
          (Backend.compare (H := reference_host)
             TestData.a_bomb TestData.ant_man
             (number_of_Z 1) (number_of_Z 2)))
     = App.ItsATie "3-3".
Proof.
  assert (HA : reads_agree (H := reference_host) TestData.a_bomb)
    by (intros stat; destruct stat; vm_compute; reflexivity).
  assert (HB : reads_agree (H := reference_host) TestData.ant_man)
    by (intros stat; destruct stat; vm_compute; reflexivity).
  split; [exact HA|]. split; [exact HB|].
  destruct (refactoring_keeps_verdicts (H := reference_host)
              {| App.superheroes := TestData.table;
                 App.selectedHeroes := [TestData.a_bomb; TestData.ant_man];
                 App.currentView := App.comparison |}
              TestData.a_bomb TestData.ant_man
              (number_of_Z 1) (number_of_Z 2) eq_refl HA HB)
    as (v & Hv & _ & _ & _ & _ & Hfinal).
  rewrite Hfinal. vm_compute in Hv. injection Hv as <-. reflexivity.
Defined.

(** * The tool of the MCP server *)

Lemma append_assoc (a b c : string) :
  ((a ++ b) ++ c = a ++ (b ++ c))%string.
Proof.
  induction a as [|x a IH]; [reflexivity|].
  change (String x ((a ++ b) ++ c) = String x (a ++ (b ++ c)))%string.
  f_equal. exact IH.
Qed.

Section ToolFacts.
Context `{HostNumerics} `{HostText}.

(** Reading any stat raises on a missing [powerstats] and on nothing
    else. *)
Lemma stat_text_raises (stats : value) (c : CategoryName) :
  Mcp.stat_text stats c = None <->
  stats = VPrim PUndefined \/ stats = VPrim PNull.
Proof.
  unfold Mcp.stat_text.
  destruct stats as [[| |b|n|s]|props]; simpl; split;
    try discriminate; try tauto; intros [E|E]; discriminate.
Qed.

Lemma stat_text_some (stats : value) (c : CategoryName) :
  stats <> VPrim PUndefined -> stats <> VPrim PNull ->
  Mcp.stat_text stats c = Some (ToString (OptGet stats c)).
Proof.
  unfold Mcp.stat_text, OptGet.
  destruct stats as [[| |b|n|s]|props]; simpl; intros H1 H2;
    try reflexivity; congruence.
Qed.

Lemma format_versions_agree (hero : Superhero) :
  Mcp.formatSuperheroMarkdown hero
  = Mcp.formatSuperheroMarkdown_template hero.
Proof.
  unfold Mcp.formatSuperheroMarkdown, Mcp.formatSuperheroMarkdown_template.
  cbv zeta.
  destruct (Mcp.stat_text (powerstats hero) intelligence) as [i|];
    [|reflexivity].
  destruct (Mcp.stat_text (powerstats hero) strength) as [s|];
    [|reflexivity].
  destruct (Mcp.stat_text (powerstats hero) speed) as [v|]; [|reflexivity].
  destruct (Mcp.stat_text (powerstats hero) durability) as [d|];
    [|reflexivity].
  destruct (Mcp.stat_text (powerstats hero) power) as [p|]; [|reflexivity].
  destruct (Mcp.stat_text (powerstats hero) combat) as [c|]; [|reflexivity].
  cbn [mbind option_bind]. f_equal.
  unfold Mcp.newline, Mcp.quote. cbn [String.concat].
  repeat (rewrite !append_assoc; simpl).
  reflexivity.
Qed.

Lemma format_raises (hero : Superhero) :
  Mcp.formatSuperheroMarkdown hero = None <->
  powerstats hero = VPrim PUndefined \/ powerstats hero = VPrim PNull.
Proof.
  split.
  - intros Hn. apply (stat_text_raises _ intelligence).
    unfold Mcp.formatSuperheroMarkdown in Hn. cbv zeta in Hn.
    destruct (Mcp.stat_text (powerstats hero) intelligence) as [i|] eqn:Ei;
      [|reflexivity].
    exfalso.
    assert (Hs : powerstats hero <> VPrim PUndefined
                 /\ powerstats hero <> VPrim PNull).
    { split; intros E;
        assert (Hx : Mcp.stat_text (powerstats hero) intelligence = None)
          by (apply stat_text_raises; tauto);
        congruence. }
    destruct Hs as [H1 H2].
    rewrite !(stat_text_some _ _ H1 H2) in Hn. discriminate.
  - intros Hs. unfold Mcp.formatSuperheroMarkdown. cbv zeta.
    rewrite (proj2 (stat_text_raises _ intelligence) Hs). reflexivity.
Qed.

End ToolFacts.

(** X10. The two versions of [formatSuperheroMarkdown], the joined array
    of [mcp/src/index.ts] and the template literal of the other server
    file, give the same text for every hero, and both raise exactly
    when the hero has no [powerstats] ([undefined] or [null]); a stat
    that is missing inside [powerstats] is printed as [undefined]. *)
Theorem format_markdown_versions `{HostNumerics} `{HostText}
  (hero : Superhero) :
  Mcp.formatSuperheroMarkdown hero = Mcp.formatSuperheroMarkdown_template hero
  /\ (Mcp.formatSuperheroMarkdown hero = None <->
      powerstats hero = VPrim PUndefined \/ powerstats hero = VPrim PNull)
  /\ forall c,
       Mcp.formatSuperheroMarkdown hero <> None ->
       OptGet (powerstats hero) c = PUndefined ->
       Mcp.stat_text (powerstats hero) c = Some "undefined"%string.
Proof.
  split; [apply format_versions_agree|]. split; [apply format_raises|].
  intros c Hsome Habsent.
  rewrite stat_text_some, Habsent; [reflexivity| |];
    intros E; apply Hsome, format_raises; tauto.
Qed.

Section LookupFacts.
Context `{HostNumerics} `{HostText}.



Lemma string_decide (a b : string) :
  bool_decide (Some a = Some b) = String.eqb a b.
Proof.
  destruct (String.eqb_spec a b) as [->|Hne].
  - apply bool_decide_eq_true. reflexivity.
  - apply bool_decide_eq_false. congruence.
Qed.

(** The two callbacks agree on a query whose name, if any, is empty
    exactly when its lower case is. *)
Lemma matches_versions (name' id' : option string) (hero : Superhero) :
  (forall s, name' = Some s ->
             (s = ""%string <-> toLowerCase s = ""%string)) ->
  Mcp.matches (toLowerCase <$> name') id' hero
  = Mcp.matches_registered name' id' hero.
Proof.
  intros Hname. unfold Mcp.matches, Mcp.matches_registered.
  destruct (Mcp.heroNameLc hero) as [lc|]; [|reflexivity].
  cbn [mbind option_bind]. f_equal. f_equal.
  - destruct name' as [s|]; [|reflexivity].
    cbn [fmap option_fmap option_map Mcp.given default].
    rewrite string_decide. f_equal.
    destruct (String.eqb_spec s ""), (String.eqb_spec (toLowerCase s) "");
      try reflexivity; exfalso; specialize (Hname s eq_refl); tauto.
  - destruct id' as [t|]; [|reflexivity].
    cbn [default]. rewrite string_decide. reflexivity.
Qed.


End LookupFacts.



(** X12. The two versions of the tool give the same outcome, text or
    exception, on every store, for every query whose name (when there
    is one) is empty exactly when its lower case is empty. *)
Theorem tool_versions_agree `{HostNumerics} `{HostText}
  (name' id' : option string) (superheroes : list Superhero) :
  (forall s, name' = Some s ->
             (s = ""%string <-> toLowerCase s = ""%string)) ->
  Mcp.get_superhero name' id' superheroes
  = Mcp.get_superhero_registered name' id' superheroes.
Proof.
  intros Hname. unfold Mcp.get_superhero, Mcp.get_superhero_registered.
  assert (Hfind : Mcp.find_raising
                    (Mcp.matches (toLowerCase <$> name') id') superheroes
                  = Mcp.find_raising (Mcp.matches_registered name' id')
                      superheroes).
  { induction superheroes as [|hero l IH]; simpl; [reflexivity|].
    rewrite (matches_versions name' id' hero Hname), IH. reflexivity. }
  rewrite Hfind. clear Hfind.
  destruct (Mcp.find_raising (Mcp.matches_registered name' id') superheroes)
    as [[hero|]|]; try reflexivity.
  rewrite format_versions_agree. reflexivity.
Qed.

Lemma tool_versions_agree_witness :
  (forall s, Some "ant-MAN"%string = Some s ->
             (s = ""%string <->
              toLowerCase (HostText := reference_text) s = ""%string))
  /\ Mcp.get_superhero_registered (H := reference_host)
       (H0 := reference_text) (Some "ant-MAN"%string) None TestData.table
     = tool_answer (H := reference_host) (H0 := reference_text)
         (Server.JsonHero TestData.ant_man).
Proof.
  assert (Hname : forall s, Some "ant-MAN"%string = Some s ->
                    (s = ""%string <->
                     toLowerCase (HostText := reference_text) s = ""%string))
    by (intros s [= <-]; split; discriminate).
  split; [exact Hname|].
  rewrite <- (tool_versions_agree (H := reference_host)
                (H0 := reference_text) (Some "ant-MAN"%string) None
                TestData.table Hname).
  vm_compute. reflexivity.
Defined.


(** * The later component *)

Lemma login_step_invariant (s : LoginApp.state) (ev : LoginApp.event) :
  (LoginApp.showLogin s = true -> s = LoginApp.initial) ->
  (length (LoginApp.selectedHeroes s) <= 2)%nat
  /\ ids_apart (LoginApp.selectedHeroes s) ->
  (LoginApp.currentView s = App.comparison ->
   LoginApp.comparisonResult s <> None) ->
  let s' := LoginApp.step s ev in
  (LoginApp.showLogin s' = true -> s' = LoginApp.initial)
  /\ ((length (LoginApp.selectedHeroes s') <= 2)%nat
      /\ ids_apart (LoginApp.selectedHeroes s'))
  /\ (LoginApp.currentView s' = App.comparison ->
      LoginApp.comparisonResult s' <> None).
Proof.
  intros Hlogin [Hl Hd] Hres. cbv zeta.
  destruct (LoginApp.showLogin s) eqn:L.
  - rewrite (Hlogin eq_refl). destruct ev as [|data|index| |[r|]|]; simpl;
      repeat split; try discriminate; try lia; try exact I.
  - assert (Hsame : (LoginApp.showLogin s = true -> s = LoginApp.initial)
                    /\ ((length (LoginApp.selectedHeroes s) <= 2)%nat
                        /\ ids_apart (LoginApp.selectedHeroes s))
                    /\ (LoginApp.currentView s = App.comparison ->
                        LoginApp.comparisonResult s <> None)).
    { repeat split; try assumption. rewrite L. discriminate. }
    destruct ev as [|data|index| |r|]; unfold LoginApp.step.
    + rewrite L. exact Hsame.
    + destruct (LoginApp.list_pending s); [|exact Hsame].
      simpl. rewrite ?L. repeat split; try assumption; discriminate.
    + unfold LoginApp.on_table. rewrite L. simpl.
      destruct (LoginApp.currentView s) eqn:V;
        [|rewrite ?V; exact Hsame].
      destruct (LoginApp.superheroes s !! index) as [hero|];
        [|rewrite ?V; exact Hsame].
      destruct (toggle_preserves hero _ Hl Hd) as [Hl' Hd'].
      simpl. rewrite ?L, ?V.
      repeat split; try assumption; discriminate.
    + destruct (LoginApp.on_table s && _); [|exact Hsame].
      simpl. rewrite ?L. repeat split; try assumption; discriminate.
    + destruct (LoginApp.compare_pending s) as [|n]; [exact Hsame|].
      destruct r as [r|]; simpl; rewrite ?L;
        repeat split; try assumption; discriminate.
    + destruct (negb (LoginApp.showLogin s) && _ && _); [|exact Hsame].
      simpl. rewrite ?L.
      repeat split; try discriminate; try (simpl; lia); try exact I.
Qed.

(** X14. The later component, through any sequence of events: until the
    login form is submitted nothing changes at all (no list is
    fetched, nothing can be selected); the selection keeps its
    invariant; and the comparison view is never current without a
    result from the back end. *)
Theorem login_app_invariants (evs : list LoginApp.event) :
  let s := LoginApp.run evs in
  (LoginApp.showLogin s = true -> s = LoginApp.initial)
  /\ valid_selection (LoginApp.selectedHeroes s)
  /\ (LoginApp.currentView s = App.comparison ->
      LoginApp.comparisonResult s <> None).
Proof.
  cbv zeta. unfold LoginApp.run.
  assert (Hgen : forall s,
    (LoginApp.showLogin s = true -> s = LoginApp.initial) ->
    (length (LoginApp.selectedHeroes s) <= 2)%nat
    /\ ids_apart (LoginApp.selectedHeroes s) ->
    (LoginApp.currentView s = App.comparison ->
     LoginApp.comparisonResult s <> None) ->
    let s' := fold_left LoginApp.step evs s in
    (LoginApp.showLogin s' = true -> s' = LoginApp.initial)
    /\ ((length (LoginApp.selectedHeroes s') <= 2)%nat
        /\ ids_apart (LoginApp.selectedHeroes s'))
    /\ (LoginApp.currentView s' = App.comparison ->
        LoginApp.comparisonResult s' <> None)).
  { induction evs as [|ev evs IH]; intros s H1 H2 H3; simpl.
    - repeat split; try assumption; apply H2.
    - destruct (login_step_invariant s ev H1 H2 H3) as (H1' & H2' & H3').
      apply IH; assumption. }
  destruct (Hgen LoginApp.initial) as (H1 & [Hl Hd] & H3).
  - reflexivity.
  - simpl. split; [lia | exact I].
  - discriminate.
  - repeat split; try assumption. apply ids_apart_distinct. exact Hd.
Qed.

(** X15. A dead end of the later component.  The answer to a comparison
    may arrive after the selection has changed: log in, let a list
    arrive whose first two heroes differ in id, select both, press
    compare, deselect the second, and let the answer arrive.  The
    comparison view is then current with one hero selected: it shows
    nothing, not even the back button, no request is under way, and no
    event changes the state any more. *)
Theorem late_answer_dead_end (l : list Superhero) (a b : Superhero)
  (r : Backend.ComparisonResult) :
  l !! 0%nat = Some a -> l !! 1%nat = Some b ->
  Selection.same_id a b = false ->
  strict_equals (id b) (id b) = true ->
  let s := LoginApp.run
             [LoginApp.Submit; LoginApp.ListArrives (Some l);
              LoginApp.ClickCheckbox 0; LoginApp.ClickCheckbox 1;
              LoginApp.ClickCompare; LoginApp.ClickCheckbox 1;
              LoginApp.CompareArrives (Some r)] in
  LoginApp.currentView s = App.comparison
  /\ LoginApp.selectedHeroes s = [a]
  /\ LoginApp.comparison_shown s = false
  /\ forall ev, LoginApp.step s ev = s.
Proof.
  intros Ha Hb Hab Hbb. cbv zeta. unfold LoginApp.run.
  pose (st := fun sel view res pending =>
    {| LoginApp.showLogin := false; LoginApp.superheroes := l;
       LoginApp.selectedHeroes := sel; LoginApp.currentView := view;
       LoginApp.comparisonResult := res; LoginApp.list_pending := false;
       LoginApp.compare_pending := pending |}).
  assert (E2 : LoginApp.step (LoginApp.step LoginApp.initial LoginApp.Submit)
                 (LoginApp.ListArrives (Some l))
               = st [] App.table None 0%nat) by reflexivity.
  assert (E3 : LoginApp.step (st [] App.table None 0%nat)
                 (LoginApp.ClickCheckbox 0)
               = st [a] App.table None 0%nat).
  { unfold LoginApp.step, LoginApp.on_table, st. simpl. rewrite Ha.
    reflexivity. }
  assert (E4 : LoginApp.step (st [a] App.table None 0%nat)
                 (LoginApp.ClickCheckbox 1)
               = st [a; b] App.table None 0%nat).
  { unfold LoginApp.step, LoginApp.on_table, st. simpl. rewrite Hb.
    unfold Selection.handleHeroSelection. simpl. rewrite Hab. reflexivity. }
  assert (E5 : LoginApp.step (st [a; b] App.table None 0%nat)
                 LoginApp.ClickCompare
               = st [a; b] App.table None 1%nat) by reflexivity.
  assert (E6 : LoginApp.step (st [a; b] App.table None 1%nat)
                 (LoginApp.ClickCheckbox 1)
               = st [a] App.table None 1%nat).
  { unfold LoginApp.step, LoginApp.on_table, st. simpl. rewrite Hb.
    unfold Selection.handleHeroSelection. simpl. rewrite Hab.
    unfold Selection.same_id. rewrite Hbb. reflexivity. }
  assert (E7 : LoginApp.step (st [a] App.table None 1%nat)
                 (LoginApp.CompareArrives (Some r))
               = st [a] App.comparison (Some r) 0%nat) by reflexivity.
  cbn [fold_left]. rewrite E2, E3, E4, E5, E6, E7.
  split; [reflexivity|]. split; [reflexivity|]. split; [reflexivity|].
  intros [|data|index| |[r'|]|]; reflexivity.
Qed.

Lemma late_answer_dead_end_witness :
  TestData.table !! 0%nat = Some TestData.a_bomb
  /\ TestData.table !! 1%nat = Some TestData.ant_man
  /\ Selection.same_id TestData.a_bomb TestData.ant_man = false
  /\ strict_equals (id TestData.ant_man) (id TestData.ant_man) = true
  /\ LoginApp.selectedHeroes
       (LoginApp.run
          [LoginApp.Submit; LoginApp.ListArrives (Some TestData.table);
           LoginApp.ClickCheckbox 0; LoginApp.ClickCheckbox 1;
           LoginApp.ClickCompare; LoginApp.ClickCheckbox 1;
           LoginApp.CompareArrives
             (Some (Backend.compare (H := reference_host)
                      TestData.a_bomb TestData.ant_man
                      (number_of_Z 1) (number_of_Z 2)))])
     = [TestData.a_bomb].
Proof.
  do 4 (split; [reflexivity|]).
  destruct (late_answer_dead_end TestData.table TestData.a_bomb
              TestData.ant_man
              (Backend.compare (H := reference_host)
                 TestData.a_bomb TestData.ant_man
                 (number_of_Z 1) (number_of_Z 2))
              eq_refl eq_refl eq_refl eq_refl) as (_ & Hsel & _).
  exact Hsel.
Defined.


Lemma frontend_safe_read_witness :
  OptGet (powerstats TestData.hero_A) intelligence = PNull
  /\ Frontend.getSafeStat (H := reference_host) TestData.hero_A intelligence
     = Some pos_zero.
Proof.
  split; [reflexivity|].
  apply (frontend_safe_read (H := reference_host)
           TestData.hero_A TestData.hero_B intelligence).
  right. left. reflexivity.
Defined.
